(** * Azure SQL MCP server: tool dispatch and query execution

    A shallow embedding of [src/azure_sql_mcp/connector.py] and
    [src/azure_sql_mcp/server.py].

    - Python values that reach the tools (JSON arguments, driver rows) are
      the inductive type [pyval].
    - Python text is [string], read as a sequence of code points below
      256; the text operations the server uses ([str.strip],
      [str.upper], [str.startswith], [str.join], [str()], [repr()],
      [json.dumps]) are written out on these code points.
    - The ODBC driver is an oracle ([Driver]); the tools run in a small
      monad [M] that threads the log of driver calls and carries Python
      exceptions, with [try_except] for [except Exception] and [with_]
      for the [with] statement. *)

From Stdlib Require Import List String Ascii Bool Arith ZArith Lia.
From Stdlib Require Import DecimalString.
Import ListNotations.
Open Scope string_scope.
Set Warnings "-register-all".

(* ================================================================= *)
(** ** Python values *)

Module Py.

(** The values a tool can see: what [json.loads] produces for the
    arguments object, and what the driver hands back in a row.  A float
    carries its [repr]; [POther] is any other object (Decimal, datetime,
    bytes, ...) with its type name and its [str()]. *)
Inductive pyval : Type :=
| PNone
| PBool (b : bool)
| PInt (z : Z)
| PFloat (repr : string)
| PStr (s : string)
| PList (l : list pyval)
| PDict (d : list (string * pyval))
| POther (tyname : string) (str_form : string).

(** Induction on values, through the lists and dicts they nest. *)
Section PyvalInduction.

Variable P : pyval -> Prop.
Hypothesis HNone : P PNone.
Hypothesis HBool : forall b, P (PBool b).
Hypothesis HInt : forall z, P (PInt z).
Hypothesis HFloat : forall r, P (PFloat r).
Hypothesis HStr : forall s, P (PStr s).
Hypothesis HList : forall l, Forall P l -> P (PList l).
Hypothesis HDict : forall d, Forall (fun kv => P (snd kv)) d -> P (PDict d).
Hypothesis HOther : forall ty s, P (POther ty s).

Fixpoint pyval_nested_ind (v : pyval) : P v :=
  match v with
  | PNone => HNone
  | PBool b => HBool b
  | PInt z => HInt z
  | PFloat r => HFloat r
  | PStr s => HStr s
  | PList l =>
      HList l
        ((fix all (l : list pyval) : Forall P l :=
            match l with
            | [] => Forall_nil P
            | x :: xs => Forall_cons x (pyval_nested_ind x) (all xs)
            end) l)
  | PDict d =>
      HDict d
        ((fix all (d : list (string * pyval)) : Forall (fun kv => P (snd kv)) d :=
            match d with
            | [] => Forall_nil _
            | kv :: xs =>
                Forall_cons kv (pyval_nested_ind (snd kv)) (all xs)
            end) d)
  | POther ty s => HOther ty s
  end.

End PyvalInduction.

(** A Python exception: its class name and [str(e)]. *)
Record pyexc : Type := mkExc { exc_class : string; exc_str : string }.

Inductive result (A : Type) : Type :=
| Ok (a : A)
| Exc (e : pyexc).
Arguments Ok {A} a.
Arguments Exc {A} e.

(** The built-in classes that derive from [BaseException] and not from
    [Exception]: what [except Exception] does not catch. *)
Definition outside_exception : list string :=
  ["BaseException"; "BaseExceptionGroup"; "GeneratorExit";
   "KeyboardInterrupt"; "SystemExit"].

(** [isinstance(e, Exception)], by the name of the class. *)
Definition under_exception (e : pyexc) : bool :=
  negb (existsb (String.eqb (exc_class e)) outside_exception).

Definition TypeError (m : string) : pyexc := mkExc "TypeError" m.
Definition ValueError (m : string) : pyexc := mkExc "ValueError" m.
Definition AttributeError (m : string) : pyexc := mkExc "AttributeError" m.
Definition IndexError (m : string) : pyexc := mkExc "IndexError" m.

(** [type(v).__name__] *)
Definition type_name (v : pyval) : string :=
  match v with
  | PNone => "NoneType"
  | PBool _ => "bool"
  | PInt _ => "int"
  | PFloat _ => "float"
  | PStr _ => "str"
  | PList _ => "list"
  | PDict _ => "dict"
  | POther t _ => t
  end.

(** A dict is an association list in insertion order, keys unique. *)
Definition dict : Type := list (string * pyval).

(** [d.get(key, default)] *)
Fixpoint dict_get (d : dict) (key : string) (default : pyval) : pyval :=
  match d with
  | [] => default
  | (k, v) :: d' => if String.eqb k key then v else dict_get d' key default
  end.

(** [d[key] = v]: an existing key keeps its position. *)
Fixpoint dict_set (d : dict) (key : string) (v : pyval) : dict :=
  match d with
  | [] => [(key, v)]
  | (k, w) :: d' =>
      if String.eqb k key then (k, v) :: d' else (k, w) :: dict_set d' key v
  end.

(** [dict(pairs)] *)
Definition dict_of_pairs (ps : list (string * pyval)) : dict :=
  fold_left (fun d kv => dict_set d (fst kv) (snd kv)) ps [].

(** [zip(xs, ys)] is [List.combine]: it stops at the shorter one. *)
Definition zip {A B} (xs : list A) (ys : list B) : list (A * B) := combine xs ys.

(* ----------------------------------------------------------------- *)
(** *** Text *)

Definition chars (s : string) : list ascii := list_ascii_of_string s.
Definition of_chars (l : list ascii) : string := string_of_list_ascii l.

(** [sep.join(parts)] on a list of texts. *)
Fixpoint join (sep : string) (parts : list string) : string :=
  match parts with
  | [] => ""
  | [p] => p
  | p :: ps => p ++ sep ++ join sep ps
  end.

(** [c.isspace()] for a code point below 256: tab, LF, VT, FF, CR, the
    four separators 0x1c-0x1f, the space, NEL (0x85) and the no-break
    space (0xa0). *)
Definition isspace (c : ascii) : bool :=
  let n := nat_of_ascii c in
  (((9 <=? n) && (n <=? 13)) || ((28 <=? n) && (n <=? 31)) || (n =? 32)
   || (n =? 133) || (n =? 160))%nat.

Fixpoint lstrip_chars (l : list ascii) : list ascii :=
  match l with
  | c :: l' => if isspace c then lstrip_chars l' else l
  | [] => []
  end.

(** [s.strip()] *)
Definition strip (s : string) : string :=
  of_chars (rev (lstrip_chars (rev (lstrip_chars (chars s))))).

(** [c.upper()] for a code point below 256 whose capital is again one
    code point below 256: the letters a-z and 0xe0-0xfe but the division
    sign 0xf7.  The capitals of the sharp s (0xdf, "SS"), of the micro
    sign (0xb5, U+039C) and of y with diaeresis (0xff, U+0178) are not
    of that kind: these three are left as they are here, and
    [upper_points] below gives their capitals. *)
Definition upper_char (c : ascii) : ascii :=
  let n := nat_of_ascii c in
  if (((97 <=? n) && (n <=? 122))
      || ((224 <=? n) && (n <=? 254) && negb (n =? 247)))%nat
  then ascii_of_nat (n - 32) else c.

(** [s.upper()] *)
Definition upper (s : string) : string := of_chars (map upper_char (chars s)).

(** [c.upper()] as a sequence of code points, for every code point
    below 256. *)
Definition upper_points (c : ascii) : list N :=
  let n := nat_of_ascii c in
  if (n =? 223)%nat then [83; 83]%N
  else if (n =? 181)%nat then [924]%N
  else if (n =? 255)%nat then [376]%N
  else [N_of_ascii (upper_char c)].

(** [s.upper()] as a sequence of code points. *)
Definition upper_exact (s : string) : list N := flat_map upper_points (chars s).

(** [t.startswith(p)] on sequences of code points. *)
Fixpoint starts_with (t p : list N) : bool :=
  match p, t with
  | [], _ => true
  | _ :: _, [] => false
  | y :: p', x :: t' => N.eqb x y && starts_with t' p'
  end.

(** The code points of a text. *)
Definition points (s : string) : list N := map N_of_ascii (chars s).

(** [s.startswith(p)] *)
Definition startswith (s p : string) : bool := String.prefix p s.

Definition hex_digit (n : nat) : ascii :=
  if (n <? 10)%nat then ascii_of_nat (48 + n) else ascii_of_nat (87 + n).

Definition hex2 (c : ascii) : string :=
  let n := nat_of_ascii c in
  String (hex_digit (n / 16)) (String (hex_digit (n mod 16)) "").

Definition int_str (z : Z) : string := NilZero.string_of_int (Z.to_int z).

Definition quote : ascii := ascii_of_nat 34.
Definition apostrophe : ascii := "'"%char.
Definition backslash : ascii := "\"%char.

Definition mem_char (c : ascii) (s : string) : bool :=
  existsb (Ascii.eqb c) (chars s).

(** One character of [repr(s)], for the chosen quote [q]: below 256 the
    code points that are not printable are 0x00-0x1f, 0x7f-0xa0 and the
    soft hyphen 0xad. *)
Definition repr_char (q : ascii) (c : ascii) : string :=
  let n := nat_of_ascii c in
  if Ascii.eqb c q then String backslash (String c "")
  else if Ascii.eqb c backslash then String backslash (String backslash "")
  else if (n =? 9)%nat then String backslash "t"
  else if (n =? 10)%nat then String backslash "n"
  else if (n =? 13)%nat then String backslash "r"
  else if ((n <? 32) || ((127 <=? n) && (n <=? 160)) || (n =? 173))%nat
       then String backslash ("x" ++ hex2 c)
  else String c "".

(** [repr(s)] of a text: single quotes, unless the text has an
    apostrophe and no double quote. *)
Definition str_repr (s : string) : string :=
  let q := if mem_char apostrophe s && negb (mem_char quote s)
           then quote else apostrophe in
  String q (concat "" (map (repr_char q) (chars s))) ++ String q "".

(** [repr(v)] *)
Fixpoint py_repr (v : pyval) : string :=
  match v with
  | PNone => "None"
  | PBool b => if b then "True" else "False"
  | PInt z => int_str z
  | PFloat r => r
  | PStr s => str_repr s
  | PList l => "[" ++ join ", " (map py_repr l) ++ "]"
  | PDict d =>
      "{" ++ join ", " (map (fun kv => str_repr (fst kv) ++ ": " ++ py_repr (snd kv)) d)
          ++ "}"
  | POther _ s => s
  end.

(** [str(v)], which is what an f-string field [{v}] inserts. *)
Definition py_str (v : pyval) : string :=
  match v with
  | PStr s => s
  | _ => py_repr v
  end.

(** Iterating a value, as [for x in v] and comprehensions do. *)
Definition py_iter (v : pyval) : result (list pyval) :=
  match v with
  | PStr s => Ok (map (fun c => PStr (String c "")) (chars s))
  | PList l => Ok l
  | PDict d => Ok (map (fun kv => PStr (fst kv)) d)
  | _ => Exc (TypeError ("'" ++ type_name v ++ "' object is not iterable"))
  end.

(** The items of [sep.join(...)] must all be texts. *)
Fixpoint join_items (i : nat) (items : list pyval) : result (list string) :=
  match items with
  | [] => Ok []
  | PStr s :: rest =>
      match join_items (S i) rest with
      | Ok ss => Ok (s :: ss)
      | Exc e => Exc e
      end
  | v :: _ =>
      Exc (TypeError ("sequence item " ++ int_str (Z.of_nat i)
                        ++ ": expected str instance, " ++ type_name v ++ " found"))
  end.

(** [sep.join(v)] on an arbitrary value. *)
Definition py_join (sep : string) (v : pyval) : result string :=
  match py_iter v with
  | Exc _ => Exc (TypeError "can only join an iterable")
  | Ok items =>
      match join_items 0 items with
      | Ok ss => Ok (join sep ss)
      | Exc e => Exc e
      end
  end.

(** [v.strip()]: only a text has the method. *)
Definition py_strip (v : pyval) : result string :=
  match v with
  | PStr s => Ok (strip s)
  | _ => Exc (AttributeError ("'" ++ type_name v ++ "' object has no attribute 'strip'"))
  end.

(** [row[i]] on a driver row. *)
Definition row_item (row : list pyval) (i : nat) : result pyval :=
  match nth_error row i with
  | Some v => Ok v
  | None => Exc (IndexError "tuple index out of range")
  end.

(** [[f(x) for x in xs]] where [f] may raise: the first exception, in
    the order of the list, ends the comprehension. *)
Section MapResult.

Context {A B : Type}.
Variable f : A -> result B.

Fixpoint map_result (xs : list A) : result (list B) :=
  match xs with
  | [] => Ok []
  | x :: xs' =>
      match f x with
      | Exc e => Exc e
      | Ok y =>
          match map_result xs' with
          | Ok ys => Ok (y :: ys)
          | Exc e => Exc e
          end
      end
  end.

End MapResult.

(* ----------------------------------------------------------------- *)
(** *** [json.dumps(v, indent=2)] *)

Definition newline : string := String (ascii_of_nat 10) "".

(** One character of a JSON text ([ensure_ascii] is on). *)
Definition json_char (c : ascii) : string :=
  let n := nat_of_ascii c in
  if (n =? 34)%nat then String backslash (String quote "")
  else if (n =? 92)%nat then String backslash (String backslash "")
  else if (n =? 8)%nat then String backslash "b"
  else if (n =? 12)%nat then String backslash "f"
  else if (n =? 10)%nat then String backslash "n"
  else if (n =? 13)%nat then String backslash "r"
  else if (n =? 9)%nat then String backslash "t"
  else if ((n <? 32) || (126 <? n))%nat then String backslash ("u00" ++ hex2 c)
  else String c "".

Definition json_string (s : string) : string :=
  String quote (concat "" (map json_char (chars s))) ++ String quote "".

Definition json_float (r : string) : string :=
  if String.eqb r "nan" then "NaN"
  else if String.eqb r "inf" then "Infinity"
  else if String.eqb r "-inf" then "-Infinity"
  else r.

(** A line break followed by the indentation of nesting level [lvl]. *)
Definition newline_indent (lvl : nat) : string :=
  newline ++ concat "" (repeat "  " lvl).

(** The encoder at nesting level [lvl].  [use_default] says whether
    [default=str] was given: an object JSON has no form for is then
    written as the text [str(o)], and is a [TypeError] otherwise. *)
Fixpoint json_encode (use_default : bool) (lvl : nat) (v : pyval) : result string :=
  match v with
  | PNone => Ok "null"
  | PBool b => Ok (if b then "true" else "false")
  | PInt z => Ok (int_str z)
  | PFloat r => Ok (json_float r)
  | PStr s => Ok (json_string s)
  | PList [] => Ok "[]"
  | PList l =>
      match map_result (json_encode use_default (S lvl)) l with
      | Exc e => Exc e
      | Ok ts =>
          Ok ("[" ++ newline_indent (S lvl)
                  ++ join ("," ++ newline_indent (S lvl)) ts
                  ++ newline_indent lvl ++ "]")
      end
  | PDict [] => Ok "{}"
  | PDict d =>
      match map_result
              (fun kv : string * pyval =>
                 let (k, x) := kv in
                 match json_encode use_default (S lvl) x with
                 | Exc e => Exc e
                 | Ok t => Ok (json_string k ++ ": " ++ t)
                 end) d with
      | Exc e => Exc e
      | Ok ts =>
          Ok ("{" ++ newline_indent (S lvl)
                  ++ join ("," ++ newline_indent (S lvl)) ts
                  ++ newline_indent lvl ++ "}")
      end
  | POther ty s =>
      if use_default then Ok (json_string s)
      else Exc (TypeError ("Object of type " ++ ty ++ " is not JSON serializable"))
  end.

(** [json.dumps(v, indent=2)] and [json.dumps(v, indent=2, default=str)] *)
Definition json_dumps (use_default : bool) (v : pyval) : result string :=
  json_encode use_default 0 v.

End Py.

Import Py.

(* ================================================================= *)
(** ** The driver and the monad of the tools *)

(** The calls the server makes on pyodbc, in the order of the source:
    [pyodbc.connect(cs)], [conn.cursor()], [cursor.execute(sql, *params)],
    [cursor.fetchall()], [conn.commit()], and the [__exit__] of the
    connection that ends a [with] block, with the exception in flight. *)
Inductive db_call : Type :=
| Connect (cs : string)
| Cursor
| Execute (sql : pyval) (params : list pyval)
| Fetchall
| Commit
| Exit (exc : option pyexc).

(** What a tool call leaves behind: each driver call with the exception
    it raised, if any, and the lines written to the logger. *)
Inductive event : Type :=
| Called (c : db_call) (raised : option pyexc)
| LogInfo (msg : string)
| LogError (msg : string).

Definition trace : Type := list event.

(** The driver and the database behind it.  Each answer may depend on
    everything that happened before. *)
Record Driver : Type := mkDriver {
  drv_raises : trace -> db_call -> option pyexc;
  drv_rows : trace -> list (list pyval);
  drv_description : trace -> option (list string)
}.

(** A computation reads the driver, extends the trace and returns a
    value or raises. *)
Definition M (A : Type) : Type := Driver -> trace -> result A * trace.

Definition ret {A} (a : A) : M A := fun _ tr => (Ok a, tr).

Definition raise {A} (e : pyexc) : M A := fun _ tr => (Exc e, tr).

Definition bind {A B} (m : M A) (k : A -> M B) : M B :=
  fun d tr =>
    match m d tr with
    | (Ok a, tr') => k a d tr'
    | (Exc e, tr') => (Exc e, tr')
    end.

Definition lift {A} (r : result A) : M A := fun _ tr => (r, tr).

Notation "x <- m ;; k" := (bind m (fun x => k))
  (at level 61, m at next level, right associativity).
Notation "m ;; k" := (bind m (fun _ => k))
  (at level 61, right associativity).

(** [try: body except Exception as e: handler(e)]: an exception of a
    class outside [Exception] is not caught. *)
Definition try_except {A} (body : M A) (handler : pyexc -> M A) : M A :=
  fun d tr =>
    match body d tr with
    | (Ok a, tr') => (Ok a, tr')
    | (Exc e, tr') =>
        if under_exception e then handler e d tr' else (Exc e, tr')
    end.

Definition call (c : db_call) : M unit :=
  fun d tr =>
    let r := drv_raises d tr c in
    (match r with None => Ok tt | Some e => Exc e end, (tr ++ [Called c r])%list).

Definition log_info (msg : string) : M unit :=
  fun _ tr => (Ok tt, (tr ++ [LogInfo msg])%list).

Definition log_error (msg : string) : M unit :=
  fun _ tr => (Ok tt, (tr ++ [LogError msg])%list).

Definition exc_of {A} (r : result A) : option pyexc :=
  match r with Ok _ => None | Exc e => Some e end.

(** [with mgr as conn: body].  The connection's [__enter__] returns the
    connection itself; its [__exit__] is called on every way out of the
    body, never swallows the exception in flight, and an exception of
    its own replaces the outcome of the body. *)
Definition with_ {A} (mgr : M unit) (body : M A) : M A :=
  fun d tr =>
    match mgr d tr with
    | (Exc e, tr1) => (Exc e, tr1)
    | (Ok _, tr1) =>
        let (r, tr2) := body d tr1 in
        match call (Exit (exc_of r)) d tr2 with
        | (Ok _, tr3) => (r, tr3)
        | (Exc e', tr3) => (Exc e', tr3)
        end
    end.

(** [cursor.fetchall()] *)
Definition fetchall : M (list (list pyval)) :=
  fun d tr =>
    let r := drv_raises d tr Fetchall in
    (match r with None => Ok (drv_rows d tr) | Some e => Exc e end,
     (tr ++ [Called Fetchall r])%list).

(** [[desc[0] for desc in cursor.description]]: the attribute is [None]
    when the last statement produced no result set. *)
Definition description_names : M (list string) :=
  fun d tr =>
    (match drv_description d tr with
     | Some names => Ok names
     | None => Exc (TypeError "'NoneType' object is not iterable")
     end, tr).

(** The run of one call, from an empty trace. *)
Definition run {A} (d : Driver) (m : M A) : result A * trace := m d [].

(* ================================================================= *)
(** ** connector.py *)

Module Connector.

Record AzureSQLConnector : Type := mkConnector {
  connection_string : option string
}.

(** [os.getenv] *)
Definition environ : Type := string -> option string.

(** Truth value of an [Optional[str]]: [None] and the empty text are
    false. *)
Definition truthy (o : option string) : bool :=
  match o with
  | Some s => negb (String.eqb s "")
  | None => false
  end.

Definition env_str (o : option string) : string :=
  match o with Some s => s | None => "None" end.

Definition setup_connection (env : environ) (self : AzureSQLConnector)
  : M AzureSQLConnector :=
  let server_name := env "AZURE_SQL_SERVER" in
  let database := env "AZURE_SQL_DATABASE" in
  let username := env "AZURE_SQL_USERNAME" in
  let password := env "AZURE_SQL_PASSWORD" in
  if negb (forallb truthy [server_name; database; username; password]) then
    raise (ValueError "Missing required environment variables for Azure SQL connection")
  else
    log_info ("Connecting to server: " ++ env_str server_name
                ++ ", database: " ++ env_str database) ;;
    ret {| connection_string :=
             Some ("DRIVER={ODBC Driver 17 for SQL Server};"
                     ++ "SERVER=" ++ env_str server_name ++ ";"
                     ++ "DATABASE=" ++ env_str database ++ ";"
                     ++ "UID=" ++ env_str username ++ ";"
                     ++ "PWD=" ++ env_str password ++ ";"
                     ++ "Encrypt=yes;"
                     ++ "TrustServerCertificate=no;"
                     ++ "Connection Timeout=30;") |}.

(** [AzureSQLConnector()] *)
Definition init (env : environ) : M AzureSQLConnector :=
  setup_connection env {| connection_string := None |}.

(** [not self.connection_string] holds for [None] and for the empty
    text. *)
Definition get_connection (self : AzureSQLConnector) : M unit :=
  match connection_string self with
  | None => raise (ValueError "Connection string not configured")
  | Some cs =>
      if negb (truthy (Some cs)) then
        raise (ValueError "Connection string not configured")
      else
        try_except
          (call (Connect cs))
          (fun e =>
             log_error ("Database connection failed: " ++ exc_str e) ;;
             raise e)
  end.

End Connector.
Import Connector.

(* ================================================================= *)
(** ** server.py *)

Module Server.

Record TextContent : Type := mkTextContent {
  type : string;
  text : string
}.

(** One entry of [properties] in an input schema. *)
Record Property : Type := mkProperty {
  property : string;
  json_type : string;
  property_description : string;
  items : option string;
  default : option pyval
}.

Record InputSchema : Type := mkInputSchema {
  properties : list Property;
  required : list string
}.

Record Tool : Type := mkTool {
  name : string;
  description : string;
  inputSchema : InputSchema
}.

Definition handle_list_tools : list Tool :=
  [ mkTool "execute_query" "Execute a SQL query on Azure SQL Database"
      (mkInputSchema
         [mkProperty "query" "string" "SQL query to execute" None None;
          mkProperty "parameters" "array" "Query parameters"
                     (Some "string") (Some (PList []))]
         ["query"]);
    mkTool "get_tables" "Get list of tables in the database"
      (mkInputSchema [] []);
    mkTool "get_table_schema" "Get schema information for a specific table"
      (mkInputSchema
         [mkProperty "table_name" "string" "Name of the table" None None]
         ["table_name"]);
    mkTool "create_table" "Create a new table in the database"
      (mkInputSchema
         [mkProperty "table_name" "string" "Name of the table to create" None None;
          mkProperty "columns" "string"
                     "Column definitions (e.g., 'id INT PRIMARY KEY, name VARCHAR(100)')"
                     None None]
         ["table_name"; "columns"]);
    mkTool "insert_data" "Insert data into a table"
      (mkInputSchema
         [mkProperty "table_name" "string" "Name of the table" None None;
          mkProperty "columns" "array" "Column names" (Some "string") None;
          mkProperty "values" "array" "Values to insert" (Some "string") None]
         ["table_name"; "columns"; "values"]) ].

(** The two SQL literals of the source, with their line breaks and
    indentation. *)
Definition get_tables_sql : string :=
  newline ++ "                SELECT TABLE_NAME"
  ++ newline ++ "                FROM INFORMATION_SCHEMA.TABLES"
  ++ newline ++ "                WHERE TABLE_TYPE = 'BASE TABLE'"
  ++ newline ++ "            ".

Definition get_table_schema_sql : string :=
  newline ++ "                SELECT COLUMN_NAME, DATA_TYPE, IS_NULLABLE, COLUMN_DEFAULT"
  ++ newline ++ "                FROM INFORMATION_SCHEMA.COLUMNS"
  ++ newline ++ "                WHERE TABLE_NAME = ?"
  ++ newline ++ "                ORDER BY ORDINAL_POSITION"
  ++ newline ++ "            ".

Section Tools.

(** The module-level singleton [connector = AzureSQLConnector()]. *)
Variable connector : AzureSQLConnector.

(** The body of the [try] of [execute_query]. *)
Definition execute_query_body (query parameters : pyval) : M (list TextContent) :=
  with_ (get_connection connector)
    (call Cursor ;;
     call (Execute query [parameters]) ;;
     stripped <- lift (py_strip query) ;;
     if startswith (upper stripped) "SELECT" then
       results <- fetchall ;;
       columns <- description_names ;;
       let data :=
         map (fun row => PDict (dict_of_pairs (zip columns row))) results in
       dumped <- lift (json_dumps true (PList data)) ;;
       ret [mkTextContent "text"
              ("Query executed successfully." ++ newline ++ "Results:"
                 ++ newline ++ dumped)]
     else
       call Commit ;;
       ret [mkTextContent "text" "Query executed successfully."]).

Definition execute_query (arguments : dict) : M (list TextContent) :=
  let query := dict_get arguments "query" (PStr "") in
  let parameters := dict_get arguments "parameters" (PList []) in
  try_except
    (execute_query_body query parameters)
    (fun e => ret [mkTextContent "text" ("Query execution failed: " ++ exc_str e)]).

Definition get_tables_body : M (list TextContent) :=
  with_ (get_connection connector)
    (call Cursor ;;
     call (Execute (PStr get_tables_sql) []) ;;
     rows <- fetchall ;;
     tables <- lift (map_result (fun row => row_item row 0) rows) ;;
     dumped <- lift (json_dumps false (PList tables)) ;;
     ret [mkTextContent "text" ("Tables in database:" ++ newline ++ dumped)]).

Definition get_tables : M (list TextContent) :=
  try_except
    get_tables_body
    (fun e => ret [mkTextContent "text" ("Failed to get tables: " ++ exc_str e)]).

(** One pass of the loop of [get_table_schema]. *)
Definition schema_entry (row : list pyval) : result pyval :=
  match row_item row 0, row_item row 1, row_item row 2, row_item row 3 with
  | Ok c0, Ok c1, Ok c2, Ok c3 =>
      Ok (PDict [("column_name", c0); ("data_type", c1);
                 ("is_nullable", c2); ("default_value", c3)])
  | Exc e, _, _, _ => Exc e
  | _, Exc e, _, _ => Exc e
  | _, _, Exc e, _ => Exc e
  | _, _, _, Exc e => Exc e
  end.

Definition get_table_schema_body (table_name : pyval) : M (list TextContent) :=
  with_ (get_connection connector)
    (call Cursor ;;
     call (Execute (PStr get_table_schema_sql) [table_name]) ;;
     rows <- fetchall ;;
     columns <- lift (map_result schema_entry rows) ;;
     dumped <- lift (json_dumps false (PList columns)) ;;
     ret [mkTextContent "text"
            ("Schema for table '" ++ py_str table_name ++ "':" ++ newline ++ dumped)]).

Definition get_table_schema (arguments : dict) : M (list TextContent) :=
  let table_name := dict_get arguments "table_name" (PStr "") in
  try_except
    (get_table_schema_body table_name)
    (fun e => ret [mkTextContent "text" ("Failed to get schema: " ++ exc_str e)]).

Definition create_table_body (table_name columns : pyval) : M (list TextContent) :=
  with_ (get_connection connector)
    (call Cursor ;;
     let query :=
       "CREATE TABLE " ++ py_str table_name ++ " (" ++ py_str columns ++ ")" in
     call (Execute (PStr query) []) ;;
     call Commit ;;
     ret [mkTextContent "text"
            ("Table '" ++ py_str table_name ++ "' created successfully.")]).

Definition create_table (arguments : dict) : M (list TextContent) :=
  let table_name := dict_get arguments "table_name" (PStr "") in
  let columns := dict_get arguments "columns" (PStr "") in
  try_except
    (create_table_body table_name columns)
    (fun e => ret [mkTextContent "text" ("Failed to create table: " ++ exc_str e)]).

(** The text of the INSERT statement, from the joined column names and
    the joined placeholders. *)
Definition insert_sql (table_name : pyval) (columns_str placeholders : string) : string :=
  "INSERT INTO " ++ py_str table_name ++ " (" ++ columns_str
    ++ ") VALUES (" ++ placeholders ++ ")".

Definition insert_data_body (table_name columns values : pyval) : M (list TextContent) :=
  with_ (get_connection connector)
    (call Cursor ;;
     columns_str <- lift (py_join ", " columns) ;;
     items <- lift (py_iter values) ;;
     let placeholders := join ", " (map (fun _ => "?") items) in
     let query := insert_sql table_name columns_str placeholders in
     call (Execute (PStr query) [values]) ;;
     call Commit ;;
     ret [mkTextContent "text"
            ("Data inserted into '" ++ py_str table_name ++ "' successfully.")]).

Definition insert_data (arguments : dict) : M (list TextContent) :=
  let table_name := dict_get arguments "table_name" (PStr "") in
  let columns := dict_get arguments "columns" (PList []) in
  let values := dict_get arguments "values" (PList []) in
  try_except
    (insert_data_body table_name columns values)
    (fun e => ret [mkTextContent "text" ("Failed to insert data: " ++ exc_str e)]).

(** [handle_call_tool(name, arguments)]; [arguments] may be [None]. *)
Definition handle_call_tool (name : string) (arguments : option dict)
  : M (list TextContent) :=
  let arguments := match arguments with Some a => a | None => [] end in
  try_except
    (if String.eqb name "execute_query" then execute_query arguments
     else if String.eqb name "get_tables" then get_tables
     else if String.eqb name "get_table_schema" then get_table_schema arguments
     else if String.eqb name "create_table" then create_table arguments
     else if String.eqb name "insert_data" then insert_data arguments
     else ret [mkTextContent "text" ("Unknown tool: " ++ name)])
    (fun e =>
       log_error ("Tool execution failed: " ++ exc_str e) ;;
       ret [mkTextContent "text" ("Error: " ++ exc_str e)]).

End Tools.

End Server.
Import Server.

(* ================================================================= *)
(** ** build/lib/your_mcp_server/azure_sql.py

    The packaged copy of the connector: its constructor makes no check
    and prints the four values it read. *)

Module BuildLib.

Record AzureSQLConnector : Type := mkConnector {
  connection_string : option string
}.

(** [print(a, b, c, d)]: the [str] of each value, a space between two
    of them and a line break at the end. *)
Definition print (values : list (option string)) : string :=
  join " " (map env_str values) ++ newline.

(** The constructor's work; the first component is what it writes to
    the standard output. *)
Definition setup_connection (env : environ) (self : AzureSQLConnector)
  : string * AzureSQLConnector :=
  let server_name := env "AZURE_SQL_SERVER" in
  let database := env "AZURE_SQL_DATABASE" in
  let username := env "AZURE_SQL_USERNAME" in
  let password := env "AZURE_SQL_PASSWORD" in
  (print [server_name; database; username; password],
   {| connection_string :=
        Some ("DRIVER={ODBC Driver 17 for SQL Server};"
                ++ "SERVER=" ++ env_str server_name ++ ";"
                ++ "DATABASE=" ++ env_str database ++ ";"
                ++ "UID=" ++ env_str username ++ ";"
                ++ "PWD=" ++ env_str password ++ ";"
                ++ "Encrypt=yes;"
                ++ "TrustServerCertificate=no;"
                ++ "Connection Timeout=30;") |}).

Definition init (env : environ) : string * AzureSQLConnector :=
  setup_connection env {| connection_string := None |}.

End BuildLib.

(* ================================================================= *)
(** ** Vocabulary of the statements

    Predicates on traces and outcomes, the tables the statements refer
    to, and the sample collaborators of the closed examples. *)

(** The four variables [setup_connection] reads. *)
Definition required_vars : list string :=
  ["AZURE_SQL_SERVER"; "AZURE_SQL_DATABASE"; "AZURE_SQL_USERNAME";
   "AZURE_SQL_PASSWORD"].

(** A variable that is not set, or set to the empty text. *)
Definition absent_or_empty (o : option string) : Prop :=
  o = None \/ o = Some "".

(** What [setup_connection] raises. *)
Definition configuration_error : pyexc :=
  ValueError "Missing required environment variables for Azure SQL connection".

(** Sample collaborators for the closed examples below. *)
Module Sample.

(** A driver on which every call succeeds and every result set is
    empty. *)
Definition empty_db : Driver :=
  mkDriver (fun _ _ => None) (fun _ => []) (fun _ => Some []).

(** A driver that refuses every statement and accepts everything else. *)
Definition rejecting_db : Driver :=
  mkDriver
    (fun _ c =>
       match c with
       | Execute _ _ => Some (mkExc "ProgrammingError" "('42000', 'syntax error')")
       | _ => None
       end)
    (fun _ => []) (fun _ => None).

Definition full_env : environ :=
  fun k =>
    if String.eqb k "AZURE_SQL_SERVER" then Some "srv.example.net"
    else if String.eqb k "AZURE_SQL_DATABASE" then Some "shop"
    else if String.eqb k "AZURE_SQL_USERNAME" then Some "app"
    else if String.eqb k "AZURE_SQL_PASSWORD" then Some "secret"
    else None.

(** The password is set, but empty. *)
Definition env_empty_password : environ :=
  fun k => if String.eqb k "AZURE_SQL_PASSWORD" then Some "" else full_env k.

Definition full_connection_string : string :=
  "DRIVER={ODBC Driver 17 for SQL Server};SERVER=srv.example.net;DATABASE=shop;UID=app;PWD=secret;Encrypt=yes;TrustServerCertificate=no;Connection Timeout=30;".

Definition sample_connector : AzureSQLConnector :=
  mkConnector (Some full_connection_string).


(** A driver on which every call succeeds and every result set is the
    one row [(1,)] of a column [x]. *)
Definition one_row_db : Driver :=
  mkDriver (fun _ _ => None) (fun _ => [[PInt 1]]) (fun _ => Some ["x"]).

End Sample.

(** [returns P m]: whenever [m] returns a value, the value satisfies [P]. *)
Definition returns {A} (P : A -> Prop) (m : M A) : Prop :=
  forall d tr a tr', m d tr = (Ok a, tr') -> P a.

(** [emits Q m]: [m] only adds events, and all of them satisfy [Q]. *)
Definition emits {A} (Q : event -> Prop) (m : M A) : Prop :=
  forall d tr, exists ev, snd (m d tr) = (tr ++ ev)%list /\ Forall Q ev.

(** What [get_connection] leaves in the trace when [pyodbc.connect]
    raises [e]: the call and, if [except Exception] catches [e], the
    line it logs before raising [e] again. *)
Definition refused (cs : string) (e : pyexc) : trace :=
  if under_exception e then
    [Called (Connect cs) (Some e);
     LogError ("Database connection failed: " ++ exc_str e)]
  else [Called (Connect cs) (Some e)].

(** What a tool makes of the outcome of its guarded region: the content
    it returned, the failure text for an exception its [except
    Exception] catches, and the exception itself otherwise. *)
Definition respond (failure : string) (r : result (list TextContent))
  : result (list TextContent) :=
  match r with
  | Ok content => Ok content
  | Exc e =>
      if under_exception e
      then Ok [mkTextContent "text" (failure ++ exc_str e)]
      else Exc e
  end.

(** A driver that raises nothing but exceptions under [Exception]. *)
Definition raises_only_exceptions (d : Driver) : Prop :=
  forall tr c e, drv_raises d tr c = Some e -> under_exception e = true.

(** [tame m]: on such a driver, what [m] raises is under [Exception]. *)
Definition tame {A} (m : M A) : Prop :=
  forall d tr e tr',
    raises_only_exceptions d -> m d tr = (Exc e, tr') -> under_exception e = true.

(** A value of [result] that raises nothing outside [Exception]. *)
Definition tame_result {A} (r : result A) : Prop :=
  forall e, r = Exc e -> under_exception e = true.



(** The driver calls made inside a [with] block, between the connect
    and the [__exit__]. *)
Definition operation (e : event) : Prop :=
  match e with
  | Called Cursor _ | Called (Execute _ _) _ | Called Fetchall _
  | Called Commit _ => True
  | _ => False
  end.

(** The three forms of the trace of a tool call. *)
Inductive call_shape : trace -> Prop :=
| shape_no_call : call_shape []
| shape_refused (cs : string) (e : pyexc) :
    call_shape (refused cs e)
| shape_scoped (cs : string) (mid : trace) (x r : option pyexc) :
    Forall operation mid ->
    call_shape (Called (Connect cs) None :: mid ++ [Called (Exit x) r]).

(** The names declared by [handle_list_tools]. *)
Definition tool_names : list string := map name handle_list_tools.

(** The guarded region (the body of the [try]) of the tool [name], on
    the arguments the tool reads with [arguments.get]; [None] for a
    name that is not a tool. *)
Definition pipeline (c : AzureSQLConnector) (name : string) (arguments : dict)
  : option (M (list TextContent)) :=
  if String.eqb name "execute_query" then
    Some (execute_query_body c (dict_get arguments "query" (PStr ""))
                               (dict_get arguments "parameters" (PList [])))
  else if String.eqb name "get_tables" then Some (get_tables_body c)
  else if String.eqb name "get_table_schema" then
    Some (get_table_schema_body c (dict_get arguments "table_name" (PStr "")))
  else if String.eqb name "create_table" then
    Some (create_table_body c (dict_get arguments "table_name" (PStr ""))
                              (dict_get arguments "columns" (PStr "")))
  else if String.eqb name "insert_data" then
    Some (insert_data_body c (dict_get arguments "table_name" (PStr ""))
                             (dict_get arguments "columns" (PList []))
                             (dict_get arguments "values" (PList [])))
  else None.

(** The text each tool's [except] clause puts before [str(e)]. *)
Definition failure_prefix (name : string) : string :=
  if String.eqb name "execute_query" then "Query execution failed: "
  else if String.eqb name "get_tables" then "Failed to get tables: "
  else if String.eqb name "get_table_schema" then "Failed to get schema: "
  else if String.eqb name "create_table" then "Failed to create table: "
  else if String.eqb name "insert_data" then "Failed to insert data: "
  else "".

Definition or_empty (arguments : option dict) : dict :=
  match arguments with Some a => a | None => [] end.

Definition one_text_block (content : list TextContent) : Prop :=
  exists t, content = [mkTextContent "text" t].

Definition is_connect (e : event) : bool :=
  match e with Called (Connect _) _ => true | _ => false end.

(** [pyodbc.connect] returned a connection. *)
Definition is_connected (e : event) : bool :=
  match e with Called (Connect _) None => true | _ => false end.

(** The [__exit__] that ends a [with] block was called. *)
Definition is_scope_exit (e : event) : bool :=
  match e with Called (Exit _) _ => true | _ => false end.

Definition count (p : event -> bool) (tr : trace) : nat := List.length (filter p tr).

(** The end of a [with] block, given the outcome of its body. *)
Definition close_scope {A} (d : Driver) (out : result A * trace) : result A * trace :=
  match drv_raises d (snd out) (Exit (exc_of (fst out))) with
  | None =>
      (fst out, (snd out ++ [Called (Exit (exc_of (fst out))) None])%list)
  | Some e' =>
      (Exc e', (snd out ++ [Called (Exit (exc_of (fst out))) (Some e')])%list)
  end.

(** The trace at the moment a statement has been executed without
    error. *)
Definition executed (cs : string) (sql : pyval) (params : list pyval) : trace :=
  [Called (Connect cs) None; Called Cursor None;
   Called (Execute sql params) None].

(** Follows the spec's words: the text begins with the letters of the
    token, each in upper or in lower case. *)
Fixpoint begins_with_token (upper_tok lower_tok s : string) : bool :=
  match upper_tok, lower_tok with
  | String u us, String l ls =>
      match s with
      | String c s' =>
          (Ascii.eqb c u || Ascii.eqb c l) && begins_with_token us ls s'
      | EmptyString => false
      end
  | _, _ => true
  end.

(** Follows the spec's words: the whitespace-trimmed text begins with
    the case-insensitive token SELECT. *)
Definition begins_with_select (q : string) : bool :=
  begins_with_token "SELECT" "select" (strip q).

(** The rows of a result set as the source serializes them:
    [dict(zip(columns, row))] for each row, dumped with [default=str]. *)
Definition dump_rows (names : list string) (rows : list (list pyval)) : result string :=
  json_dumps true
    (PList (map (fun row => PDict (dict_of_pairs (zip names row))) rows)).

(** What follows a successful execute in the row-producing branch. *)
Definition fetch_branch (d : Driver) (t3 : trace) : result (list TextContent) * trace :=
  match drv_raises d t3 Fetchall with
  | Some e => (Exc e, (t3 ++ [Called Fetchall (Some e)])%list)
  | None =>
      (match drv_description d (t3 ++ [Called Fetchall None])%list with
       | None => Exc (TypeError "'NoneType' object is not iterable")
       | Some names =>
           match dump_rows names (drv_rows d t3) with
           | Ok dumped =>
               Ok [mkTextContent "text"
                     ("Query executed successfully." ++ newline
                        ++ "Results:" ++ newline ++ dumped)]
           | Exc e => Exc e
           end
       end, (t3 ++ [Called Fetchall None])%list)
  end.

(** What follows a successful execute in an effect-only tool. *)
Definition commit_branch (d : Driver) (t3 : trace) (success : string)
  : result (list TextContent) * trace :=
  match drv_raises d t3 Commit with
  | Some e => (Exc e, (t3 ++ [Called Commit (Some e)])%list)
  | None => (Ok [mkTextContent "text" success], (t3 ++ [Called Commit None])%list)
  end.

(** No statement was executed without error. *)
Definition nothing_executed (tr : trace) : Prop :=
  forall sql ps, ~ In (Called (Execute sql ps) None) tr.

(** A run that raises before any statement is executed. *)
Definition failed_early {A} (out : result A * trace) : Prop :=
  nothing_executed (snd out) /\ exists e, fst out = Exc e.

Definition create_table_sql (table_name columns : pyval) : string :=
  "CREATE TABLE " ++ py_str table_name ++ " (" ++ py_str columns ++ ")".

Definition table_created (table_name : pyval) : string :=
  "Table '" ++ py_str table_name ++ "' created successfully.".

Definition data_inserted (table_name : pyval) : string :=
  "Data inserted into '" ++ py_str table_name ++ "' successfully.".

(** The statement that the tool [name] builds from its arguments and
    the bind parameters it gives with it, as in the [cursor.execute] of
    each tool; an exception when Python raises while building it, and
    [None] for a name that is not a tool. *)
Definition statement_of (name : string) (arguments : dict)
  : option (result (pyval * list pyval)) :=
  let table_name := dict_get arguments "table_name" (PStr "") in
  if String.eqb name "execute_query" then
    Some (Ok (dict_get arguments "query" (PStr ""),
              [dict_get arguments "parameters" (PList [])]))
  else if String.eqb name "get_tables" then Some (Ok (PStr get_tables_sql, []))
  else if String.eqb name "get_table_schema" then
    Some (Ok (PStr get_table_schema_sql, [table_name]))
  else if String.eqb name "create_table" then
    Some (Ok (PStr (create_table_sql table_name
                                     (dict_get arguments "columns" (PStr ""))), []))
  else if String.eqb name "insert_data" then
    let values := dict_get arguments "values" (PList []) in
    Some (match py_join ", " (dict_get arguments "columns" (PList [])) with
          | Exc e => Exc e
          | Ok columns_str =>
              match py_iter values with
              | Exc e => Exc e
              | Ok items =>
                  Ok (PStr (insert_sql table_name columns_str
                              (join ", " (map (fun _ => "?") items))),
                      [values])
              end
          end)
  else None.

(** The driver gives a connection for [cs] and a cursor on it. *)
Definition gives_cursor (d : Driver) (cs : string) : Prop :=
  drv_raises d [] (Connect cs) = None
  /\ drv_raises d [Called (Connect cs) None] Cursor = None.

(** The trace at the moment a statement has been handed to the driver,
    with what the driver made of it. *)
Definition handed (d : Driver) (cs : string) (sql : pyval) (params : list pyval)
  : trace :=
  [Called (Connect cs) None; Called Cursor None;
   Called (Execute sql params)
          (drv_raises d [Called (Connect cs) None; Called Cursor None]
                      (Execute sql params))].

(** The trace [tr] opens with [t]. *)
Definition opens_with (t tr : trace) : Prop :=
  exists rest, tr = (t ++ rest)%list.

(** [committed out success]: in the outcome [out] of a tool, a statement
    executed without error is followed at once by a commit, and the
    response [success] is returned only after a commit that did not
    raise. *)
Definition committed (out : result (list TextContent) * trace) (success : string)
  : Prop :=
  (forall sql ps,
      In (Called (Execute sql ps) None) (snd out) ->
      exists cs rc x re,
        snd out = (executed cs sql ps ++ [Called Commit rc; Called (Exit x) re])%list)
  /\ (fst out = Ok [mkTextContent "text" success] ->
      exists cs sql ps,
        snd out = (executed cs sql ps
                     ++ [Called Commit None; Called (Exit None) None])%list).

(** The outcome of a tool whose guarded region is [body]. *)
Definition answered (failure : string) (out : result (list TextContent) * trace)
  : result (list TextContent) * trace :=
  (respond failure (fst out), snd out).

Definition schema_found (table_name : pyval) (dumped : string) : string :=
  "Schema for table '" ++ py_str table_name ++ "':" ++ newline ++ dumped.

(** What follows a successful execute in [get_table_schema]. *)
Definition schema_branch (d : Driver) (t3 : trace) (table_name : pyval)
  : result (list TextContent) * trace :=
  match drv_raises d t3 Fetchall with
  | Some e => (Exc e, (t3 ++ [Called Fetchall (Some e)])%list)
  | None =>
      (match map_result schema_entry (drv_rows d t3) with
       | Exc e => Exc e
       | Ok columns =>
           match json_dumps false (PList columns) with
           | Ok dumped => Ok [mkTextContent "text" (schema_found table_name dumped)]
           | Exc e => Exc e
           end
       end, (t3 ++ [Called Fetchall None])%list)
  end.

(** No statement was handed to the driver at all. *)
Definition nothing_sent (tr : trace) : Prop :=
  forall sql ps r, ~ In (Called (Execute sql ps) r) tr.

(** The response is a failure payload of the tool [name]. *)
Definition failure_payload (name : string) (r : result (list TextContent)) : Prop :=
  exists m, r = Ok [mkTextContent "text" (failure_prefix name ++ m)].

(** Follows the spec's words: [insert_data] turns away a call whose
    columns and values differ in number, with a failure payload and
    without sending anything. *)
Definition rejects_mismatch
           (c : AzureSQLConnector) (d : Driver) (arguments : dict) : Prop :=
  failure_payload "insert_data" (fst (run d (insert_data c arguments)))
  /\ nothing_sent (snd (run d (insert_data c arguments))).

Module Mismatch.

Definition arguments : dict :=
  [("table_name", PStr "t");
   ("columns", PList [PStr "a"; PStr "b"]);
   ("values", PList [PStr "1"])].

Definition statement : pyval := PStr "INSERT INTO t (a, b) VALUES (?)".

End Mismatch.

(** Follows the spec's words: a call with a missing or misshapen
    argument is turned away, with a failure payload and without sending
    anything. *)
Definition rejects_arguments
           (c : AzureSQLConnector) (d : Driver) (name : string)
           (arguments : option dict) : Prop :=
  failure_payload name (fst (run d (handle_call_tool c name arguments)))
  /\ nothing_sent (snd (run d (handle_call_tool c name arguments))).

(** The key has no entry in the arguments object. *)
Definition missing (key : string) (arguments : dict) : Prop :=
  forall v, ~ In (key, v) arguments.

(** The arguments the tools read, each with the default of its
    [arguments.get]. *)
Definition argument_defaults : list (string * string * pyval) :=
  [("execute_query", "query", PStr "");
   ("execute_query", "parameters", PList []);
   ("get_table_schema", "table_name", PStr "");
   ("create_table", "table_name", PStr "");
   ("create_table", "columns", PStr "");
   ("insert_data", "table_name", PStr "");
   ("insert_data", "columns", PList []);
   ("insert_data", "values", PList [])].

(** The connector has no usable connection string. *)
Definition unconfigured (c : AzureSQLConnector) : Prop :=
  truthy (connection_string c) = false.

Definition is_execute (e : event) : bool :=
  match e with Called (Execute _ _) _ => true | _ => false end.

(** [sends n m]: [m] only adds events, at most [n] of them statements
    handed to the driver. *)
Definition sends {A} (n : nat) (m : M A) : Prop :=
  forall d tr,
    exists ev, snd (m d tr) = (tr ++ ev)%list /\ count is_execute ev <= n.

(** An event that is not a commit. *)
Definition not_commit (e : event) : Prop :=
  match e with Called Commit _ => False | _ => True end.

(** An event that is neither a commit nor a fetch. *)
Definition settles_nothing (e : event) : Prop :=
  match e with Called Commit _ | Called Fetchall _ => False | _ => True end.

(** An event that, if it hands a statement to the driver, hands this
    one with these arguments. *)
Definition statement_is (sql : pyval) (params : list pyval) (e : event) : Prop :=
  match e with
  | Called (Execute sql' params') _ => sql' = sql /\ params' = params
  | _ => True
  end.

(** An event that, if it hands a statement to the driver, hands the
    INSERT text made of the table name, the joined columns and one
    placeholder per item of [values], with [values] itself as the one
    argument. *)
Definition insert_statement (table_name columns values : pyval) (e : event) : Prop :=
  match e with
  | Called (Execute sql params) _ =>
      params = [values]
      /\ exists columns_str items,
           py_join ", " columns = Ok columns_str
           /\ py_iter values = Ok items
           /\ sql = PStr (insert_sql table_name columns_str
                            (join ", " (repeat "?" (List.length items))))
  | _ => True
  end.

(** An event that is not a line of the dispatcher's own handler. *)
Definition not_dispatcher_log (e : event) : Prop :=
  match e with
  | LogError msg => exists m, msg = "Database connection failed: " ++ m
  | _ => True
  end.

(** The first character of a text is one of [letters]. *)
Definition starts_with_one_of (letters : string) (t : string) : Prop :=
  match t with
  | String c _ => In c (chars letters)
  | EmptyString => False
  end.

(** A response of one text block whose text begins with one of
    [letters]. *)
Definition block_starting (letters : string) (content : list TextContent) : Prop :=
  exists t, content = [mkTextContent "text" t] /\ starts_with_one_of letters t.

(** The test of [execute_query] on a statement text. *)
Definition is_select_query (q : string) : bool :=
  startswith (upper (strip q)) "SELECT".

(** A text made of whitespace only. *)
Definition all_space (s : string) : Prop := Forall (fun c => isspace c = true) (chars s).

(** A JSON array of already encoded items at the top level, as
    [json.dumps(..., indent=2)] lays it out. *)
Definition json_array (items : list string) : string :=
  match items with
  | [] => "[]"
  | _ => "[" ++ newline_indent 1 ++ join ("," ++ newline_indent 1) items
             ++ newline_indent 0 ++ "]"
  end.

(** A value JSON has a form for: no foreign object at any depth. *)
Fixpoint json_native (v : pyval) : bool :=
  match v with
  | POther _ _ => false
  | PList l => forallb json_native l
  | PDict d => forallb (fun kv => json_native (snd kv)) d
  | _ => true
  end.


(** What follows a successful execute in [get_tables]. *)
Definition tables_branch (d : Driver) (t3 : trace)
  : result (list TextContent) * trace :=
  match drv_raises d t3 Fetchall with
  | Some e => (Exc e, (t3 ++ [Called Fetchall (Some e)])%list)
  | None =>
      (match map_result (fun row => row_item row 0) (drv_rows d t3) with
       | Exc e => Exc e
       | Ok tables =>
           match json_dumps false (PList tables) with
           | Ok dumped =>
               Ok [mkTextContent "text" ("Tables in database:" ++ newline ++ dumped)]
           | Exc e => Exc e
           end
       end, (t3 ++ [Called Fetchall None])%list)
  end.

(* ================================================================= *)
(** ** Configuration at start-up *)

Lemma truthy_false_iff (o : option string) :
  truthy o = false <-> absent_or_empty o.
Proof.
  unfold absent_or_empty; destruct o as [s|]; simpl.
  - destruct (String.eqb_spec s ""); simpl; split.
    + intros _. right. congruence.
    + reflexivity.
    + discriminate.
    + intros [H|H]; [discriminate | congruence].
  - split; auto.
Qed.

Lemma all_required_truthy (env : environ) :
  forallb truthy (map env required_vars) = true <->
  (forall k, In k required_vars -> ~ absent_or_empty (env k)).
Proof.
  rewrite forallb_forall. split.
  - intros H k Hk A. apply truthy_false_iff in A.
    rewrite (H (env k)) in A; [discriminate | now apply in_map].
  - intros H o Ho. apply in_map_iff in Ho. destruct Ho as (k & <- & Hk).
    destruct (truthy (env k)) eqn:E; [reflexivity|].
    apply truthy_false_iff in E. now elim (H k).
Qed.

(** The run of the constructor, in the two cases of its check. *)
Lemma init_run (env : environ) (d : Driver) (tr : trace) :
  if forallb truthy (map env required_vars) then
    exists cs, init env d tr =
      (Ok (mkConnector (Some ("DRIVER={ODBC Driver 17 for SQL Server};" ++ cs))),
       (tr ++ [LogInfo ("Connecting to server: " ++ env_str (env "AZURE_SQL_SERVER")
                          ++ ", database: " ++ env_str (env "AZURE_SQL_DATABASE"))])%list)
  else init env d tr = (Exc configuration_error, tr).
Proof.
  unfold init, setup_connection, required_vars.
  cbn [map].
  destruct (forallb truthy _); cbn [negb].
  - eexists. unfold bind, log_info, ret. reflexivity.
  - reflexivity.
Qed.

(** C6. Building the connector raises the configuration error exactly
    when one of the four variables (server, database, user name,
    password) is not set or is empty; when all four are there it returns
    a connector on which the check made at every call,
    [not self.connection_string], is false. *)
Theorem init_fails_iff_missing_configuration :
  forall (env : environ) (d : Driver) (tr : trace),
    ((exists k, In k required_vars /\ absent_or_empty (env k)) ->
       init env d tr = (Exc configuration_error, tr))
    /\ ((forall k, In k required_vars -> ~ absent_or_empty (env k)) ->
          exists self, fst (init env d tr) = Ok self
                       /\ truthy (connection_string self) = true).
Proof.
  intros env d tr. pose proof (init_run env d tr) as R.
  destruct (forallb truthy (map env required_vars)) eqn:E.
  - pose proof (proj1 (all_required_truthy env) E) as E'. split.
    + intros (k & Hk & A). now elim (E' k).
    + intros _. destruct R as (cs & R). rewrite R. eexists. split; reflexivity.
  - split; [intros _; exact R|].
    intros H. pose proof (proj2 (all_required_truthy env) H). congruence.
Qed.

Lemma init_fails_iff_missing_configuration_witness :
  init Sample.env_empty_password Sample.empty_db [] = (Exc configuration_error, [])
  /\ exists self, fst (init Sample.full_env Sample.empty_db []) = Ok self
                  /\ truthy (connection_string self) = true.
Proof.
  split.
  - apply (init_fails_iff_missing_configuration
             Sample.env_empty_password Sample.empty_db []).
    exists "AZURE_SQL_PASSWORD". split; [simpl; tauto | right; reflexivity].
  - apply (init_fails_iff_missing_configuration Sample.full_env Sample.empty_db []).
    intros k Hk [A|A]; simpl in Hk;
      repeat (destruct Hk as [<-|Hk]; [vm_compute in A; discriminate|]);
      contradiction.
Defined.

(** The run of [get_connection] on a configured connector: one call of
    the driver, whose exception, if any, is logged and raised again. *)
Lemma get_connection_configured (cs : string) (d : Driver) (tr : trace) :
  cs <> "" ->
  get_connection (mkConnector (Some cs)) d tr =
    match drv_raises d tr (Connect cs) with
    | None => (Ok tt, tr ++ [Called (Connect cs) None])
    | Some e => (Exc e, tr ++ refused cs e)
    end%list.
Proof.
  intros N. unfold get_connection. cbn [connection_string truthy].
  destruct (String.eqb_spec cs ""); [contradiction|]. cbn [negb].
  unfold try_except, call, bind, log_error, raise, refused.
  destruct (drv_raises d tr (Connect cs)) as [e|]; [|reflexivity].
  destruct (under_exception e); [|reflexivity].
  now rewrite <- app_assoc.
Qed.

(** C10. Once the constructor has returned, [connection_string] holds a
    non-empty text, and every [get_connection] on that connector goes
    to the driver with it: what it raises, if anything, is the driver's
    exception, never the "Connection string not configured" of its own
    check. *)
Theorem constructed_connector_is_configured :
  forall (env : environ) (d : Driver) (tr tr' : trace) (self : AzureSQLConnector),
    init env d tr = (Ok self, tr') ->
    exists cs,
      connection_string self = Some cs /\ cs <> ""
      /\ forall d' tr0,
           exists r rest,
             snd (get_connection self d' tr0) = (tr0 ++ Called (Connect cs) r :: rest)%list
             /\ r = drv_raises d' tr0 (Connect cs)
             /\ fst (get_connection self d' tr0) =
                match r with None => Ok tt | Some e => Exc e end.
Proof.
  intros env d tr tr' self H. pose proof (init_run env d tr) as R.
  destruct (forallb truthy (map env required_vars)).
  - destruct R as (cs & R). rewrite R in H. injection H as <- _.
    eexists. split; [reflexivity|]. split; [discriminate|].
    intros d' tr0. rewrite get_connection_configured by discriminate.
    destruct (drv_raises d' tr0 _) as [e|]; [unfold refused;
      destruct (under_exception e)|]; do 2 eexists; cbn [fst snd];
      repeat split; reflexivity.
  - rewrite R in H. discriminate.
Qed.

Lemma constructed_connector_is_configured_witness :
  exists cs,
    connection_string Sample.sample_connector = Some cs /\ cs <> ""
    /\ forall d' tr0,
         exists r rest,
           snd (get_connection Sample.sample_connector d' tr0)
           = (tr0 ++ Called (Connect cs) r :: rest)%list
           /\ r = drv_raises d' tr0 (Connect cs)
           /\ fst (get_connection Sample.sample_connector d' tr0) =
              match r with None => Ok tt | Some e => Exc e end.
Proof.
  apply (constructed_connector_is_configured Sample.full_env Sample.empty_db []
           [LogInfo "Connecting to server: srv.example.net, database: shop"]).
  reflexivity.
Defined.

(* ================================================================= *)
(** ** Reasoning about runs *)

Create HintDb run discriminated.

Section Combinators.

Context {A B : Type}.

Lemma returns_ret (P : A -> Prop) (a : A) : P a -> returns P (ret a).
Proof. intros H d tr a' tr' E. unfold ret in E. now inversion E; subst. Qed.

Lemma returns_bind (P : B -> Prop) (m : M A) (k : A -> M B) :
  (forall a, returns P (k a)) -> returns P (bind m k).
Proof.
  intros H d tr b tr' E. unfold bind in E.
  destruct (m d tr) as [[a|e] tr1]; [|discriminate].
  exact (H a d tr1 b tr' E).
Qed.

Lemma returns_with (P : A -> Prop) (mgr : M unit) (body : M A) :
  returns P body -> returns P (with_ mgr body).
Proof.
  intros H d tr a tr' E. unfold with_ in E.
  destruct (mgr d tr) as [[[]|e] tr1]; [|discriminate].
  destruct (body d tr1) as [r tr2] eqn:Eb.
  destruct (call (Exit (exc_of r)) d tr2) as [[[]|e'] tr3]; [|discriminate].
  inversion E; subst. exact (H d tr1 a tr2 Eb).
Qed.

Lemma emits_ret (Q : event -> Prop) (a : A) : emits Q (ret a).
Proof. intros d tr. exists []. now rewrite app_nil_r. Qed.

Lemma emits_raise (Q : event -> Prop) (e : pyexc) : emits Q (@raise A e).
Proof. intros d tr. exists []. now rewrite app_nil_r. Qed.

Lemma emits_lift (Q : event -> Prop) (r : result A) : emits Q (lift r).
Proof. intros d tr. exists []. now rewrite app_nil_r. Qed.

Lemma emits_bind (Q : event -> Prop) (m : M A) (k : A -> M B) :
  emits Q m -> (forall a, emits Q (k a)) -> emits Q (bind m k).
Proof.
  intros Hm Hk d tr. unfold bind.
  destruct (Hm d tr) as (ev1 & E1 & F1).
  destruct (m d tr) as [[a|e] tr1]; cbn [snd] in E1; subst tr1.
  - destruct (Hk a d (tr ++ ev1)%list) as (ev2 & E2 & F2).
    exists (ev1 ++ ev2)%list. rewrite E2, app_assoc. split; [reflexivity|].
    apply Forall_app; now split.
  - now exists ev1.
Qed.

End Combinators.

Lemma emits_call (Q : event -> Prop) (c : db_call) :
  (forall r, Q (Called c r)) -> emits Q (call c).
Proof.
  intros H d tr. exists [Called c (drv_raises d tr c)].
  split; [reflexivity | constructor; auto].
Qed.

Lemma emits_fetchall (Q : event -> Prop) :
  (forall r, Q (Called Fetchall r)) -> emits Q fetchall.
Proof.
  intros H d tr. exists [Called Fetchall (drv_raises d tr Fetchall)].
  split; [reflexivity | constructor; auto].
Qed.

Lemma emits_description_names (Q : event -> Prop) : emits Q description_names.
Proof. intros d tr. exists []. now rewrite app_nil_r. Qed.

Lemma emits_if {A} (Q : event -> Prop) (b : bool) (m1 m2 : M A) :
  emits Q m1 -> emits Q m2 -> emits Q (if b then m1 else m2).
Proof. now destruct b. Qed.

Lemma returns_if {A} (P : A -> Prop) (b : bool) (m1 m2 : M A) :
  returns P m1 -> returns P m2 -> returns P (if b then m1 else m2).
Proof. now destruct b. Qed.

#[export] Hint Resolve returns_ret returns_bind returns_with returns_if : run.
#[export] Hint Resolve emits_ret emits_raise emits_lift emits_bind emits_call
  emits_fetchall emits_description_names emits_if : run.

(** A handler that only builds a response turns every outcome of the
    body that [except Exception] covers into a returned value. *)
Lemma try_except_ret {A} (body : M A) (h : pyexc -> A) (d : Driver) (tr : trace) :
  try_except body (fun e => ret (h e)) d tr =
    (match fst (body d tr) with
     | Ok a => Ok a
     | Exc e => if under_exception e then Ok (h e) else Exc e
     end, snd (body d tr)).
Proof.
  unfold try_except, ret. destruct (body d tr) as [[a|e] tr']; [reflexivity|].
  cbn [fst snd]. destruct (under_exception e); reflexivity.
Qed.

Lemma with_connection_shape {A} (c : AzureSQLConnector) (body : M A) (d : Driver) :
  emits operation body ->
  call_shape (snd (with_ (get_connection c) body d [])).
Proof.
  intros Hb. unfold with_, get_connection.
  destruct (connection_string c) as [cs|]; [|constructor].
  destruct (negb (truthy (Some cs))); [constructor|].
  unfold try_except, call at 1, bind, log_error, raise. cbn [app].
  destruct (drv_raises d [] (Connect cs)) as [e|].
  { pose proof (shape_refused cs e) as S. unfold refused in S.
    now destruct (under_exception e). }
  destruct (Hb d [Called (Connect cs) None]) as (mid & E & F).
  destruct (body d _) as [r tr2]. cbn [snd] in E. subst tr2.
  unfold call.
  destruct (drv_raises d _ (Exit (exc_of r))) as [e'|]; cbn [snd];
    rewrite <- app_assoc; cbn [app]; now constructor.
Qed.

(* ================================================================= *)
(** ** Dispatch *)

Lemma pipeline_known (c : AzureSQLConnector) (name : string) (arguments : dict) :
  pipeline c name arguments = None <-> ~ In name tool_names.
Proof.
  unfold pipeline, tool_names.
  repeat match goal with
         | |- context [String.eqb name ?k] =>
             let E := fresh "E" in
             destruct (String.eqb_spec name k) as [E|E];
             [split; [discriminate
                     | intros H; exfalso; apply H; rewrite E; simpl; auto 10]|]
         end.
  split; [|reflexivity]. intros _ H. simpl in H.
  repeat (destruct H as [H|H]; [congruence|]). exact H.
Qed.

(** The run of [handle_call_tool], in terms of the guarded region of
    the tool it selects. *)
Lemma handle_call_tool_run
      (c : AzureSQLConnector) (d : Driver) (name : string) (arguments : option dict) :
  run d (handle_call_tool c name arguments) =
    match pipeline c name (or_empty arguments) with
    | Some body =>
        (respond (failure_prefix name) (fst (run d body)), snd (run d body))
    | None => (Ok [mkTextContent "text" ("Unknown tool: " ++ name)], [])
    end.
Proof.
  unfold run, handle_call_tool, pipeline, failure_prefix.
  fold (or_empty arguments). unfold try_except at 1.
  unfold execute_query, get_tables, get_table_schema, create_table, insert_data.
  repeat (destruct (String.eqb name _);
          [rewrite try_except_ret; unfold respond;
           match goal with
           | |- context [fst (?b d [])] => destruct (fst (b d [])) as [a|e]
           end; [reflexivity|];
           destruct (under_exception e) eqn:E; [reflexivity | now rewrite E]|]).
  reflexivity.
Qed.

Lemma one_text_block_intro (t : string) : one_text_block [mkTextContent "text" t].
Proof. now exists t. Qed.

#[export] Hint Resolve one_text_block_intro : run.

Ltac run_auto :=
  repeat first
    [ progress intros
    | apply returns_with
    | apply returns_bind
    | apply returns_if
    | apply returns_ret
    | apply emits_bind
    | apply emits_if
    | apply emits_call
    | solve [auto with run]
    | exact I ].


(** Every guarded region is [with connector.get_connection() ...] around
    driver operations. *)
Lemma pipeline_shape
      (c : AzureSQLConnector) (d : Driver) (name : string) (arguments : dict)
      (body : M (list TextContent)) :
  pipeline c name arguments = Some body -> call_shape (snd (run d body)).
Proof.
  unfold pipeline, run.
  repeat (destruct (String.eqb name _);
          [intros H; injection H as <-;
           unfold execute_query_body, get_tables_body, get_table_schema_body,
             create_table_body, insert_data_body;
           apply with_connection_shape; run_auto|]).
  discriminate.
Qed.

(** *** What the pipeline can raise *)

Lemma map_result_exc {A B} (f : A -> result B) (xs : list A) (e : pyexc) :
  map_result f xs = Exc e -> exists x, In x xs /\ f x = Exc e.
Proof.
  induction xs as [|x xs IH]; cbn [map_result]; [discriminate|].
  destruct (f x) as [y|e'] eqn:Hx.
  - destruct (map_result f xs) as [ys|e'']; [discriminate|].
    intros H. injection H as ->. destruct (IH eq_refl) as (x' & Hin & Hx').
    exists x'. split; [now right | exact Hx'].
  - intros H. injection H as ->. exists x. split; [now left | exact Hx].
Qed.

Lemma json_encode_exc (ud : bool) (v : pyval) :
  forall lvl e, json_encode ud lvl v = Exc e -> exc_class e = "TypeError".
Proof.
  induction v as [|b|z|r|s|l IH|kvs IH|ty s] using pyval_nested_ind;
    intros lvl e; try discriminate.
  - destruct l as [|x l]; [discriminate|]. cbn [json_encode].
    destruct (map_result _ (x :: l)) as [ts|e'] eqn:Hm; [discriminate|].
    intros H. injection H as ->.
    apply map_result_exc in Hm. destruct Hm as (a & Ha & He).
    rewrite Forall_forall in IH. exact (IH a Ha _ _ He).
  - destruct kvs as [|kv kvs]; [discriminate|]. cbn [json_encode].
    destruct (map_result _ (kv :: kvs)) as [ts|e'] eqn:Hm; [discriminate|].
    intros H. injection H as ->.
    apply map_result_exc in Hm. destruct Hm as ([k a] & Ha & He).
    rewrite Forall_forall in IH. specialize (IH (k, a) Ha (S lvl) e).
    cbn [snd] in IH. destruct (json_encode ud (S lvl) a) as [t|e']; [discriminate|].
    injection He as ->. now apply IH.
  - cbn [json_encode]. destruct ud; [discriminate|].
    intros H. injection H as <-. reflexivity.
Qed.

Lemma tame_json_dumps (ud : bool) (v : pyval) : tame_result (json_dumps ud v).
Proof.
  intros e H. apply json_encode_exc in H. unfold under_exception. now rewrite H.
Qed.

Lemma tame_py_strip (v : pyval) : tame_result (py_strip v).
Proof. intros e. destruct v; cbn [py_strip]; intros H; try discriminate;
         injection H as <-; reflexivity. Qed.

Lemma tame_py_iter (v : pyval) : tame_result (py_iter v).
Proof. intros e. destruct v; cbn [py_iter]; intros H; try discriminate;
         injection H as <-; reflexivity. Qed.

Lemma tame_join_items (items : list pyval) :
  forall i, tame_result (join_items i items).
Proof.
  induction items as [|v items IH]; intros i e; cbn [join_items]; [discriminate|].
  destruct v; try (intros H; injection H as <-; reflexivity).
  destruct (join_items (S i) items) as [ss|e'] eqn:Hj; [discriminate|].
  intros H. injection H as ->. exact (IH (S i) e Hj).
Qed.

Lemma tame_py_join (sep : string) (v : pyval) : tame_result (py_join sep v).
Proof.
  intros e. unfold py_join. destruct (py_iter v) as [items|e'].
  - destruct (join_items 0 items) as [ss|e''] eqn:Hj; [discriminate|].
    intros H. injection H as ->. exact (tame_join_items items 0 e Hj).
  - intros H. injection H as <-. reflexivity.
Qed.

Lemma tame_row_items (rows : list (list pyval)) :
  tame_result (map_result (fun row => row_item row 0) rows).
Proof.
  intros e H. apply map_result_exc in H. destruct H as (row & _ & H).
  unfold row_item in H. destruct (nth_error row 0); [discriminate|].
  injection H as <-. reflexivity.
Qed.

Lemma tame_schema_entries (rows : list (list pyval)) :
  tame_result (map_result schema_entry rows).
Proof.
  intros e H. apply map_result_exc in H. destruct H as (row & _ & H).
  destruct row as [|c0 [|c1 [|c2 [|c3 rest]]]]; cbn in H; try discriminate;
    injection H as <-; reflexivity.
Qed.

Section Tame.

Context {A B : Type}.

Lemma tame_ret (a : A) : tame (ret a).
Proof. intros d tr e tr' _ H. discriminate. Qed.

Lemma tame_raise (e : pyexc) : under_exception e = true -> tame (@raise A e).
Proof. intros U d tr e' tr' _ H. unfold raise in H. now injection H as <- _. Qed.

Lemma tame_lift (r : result A) : tame_result r -> tame (lift r).
Proof. intros Hr d tr e tr' _ H. unfold lift in H. injection H as H _. now apply Hr. Qed.

Lemma tame_bind (m : M A) (k : A -> M B) :
  tame m -> (forall a, tame (k a)) -> tame (bind m k).
Proof.
  intros Hm Hk d tr e tr' Hd H. unfold bind in H.
  destruct (m d tr) as [[a|e0] tr1] eqn:E.
  - exact (Hk a d tr1 e tr' Hd H).
  - injection H as <- _. exact (Hm d tr e0 tr1 Hd E).
Qed.

Lemma tame_if (t : bool) (m1 m2 : M A) : tame m1 -> tame m2 -> tame (if t then m1 else m2).
Proof. now destruct t. Qed.

Lemma tame_try_except (body : M A) (handler : pyexc -> M A) :
  tame body ->
  (forall e, under_exception e = true -> tame (handler e)) ->
  tame (try_except body handler).
Proof.
  intros Hb Hh d tr e tr' Hd H. unfold try_except in H.
  destruct (body d tr) as [[a|e0] tr1] eqn:E; [discriminate|].
  destruct (under_exception e0) eqn:U.
  - exact (Hh e0 U d tr1 e tr' Hd H).
  - injection H as <- _. rewrite (Hb d tr e0 tr1 Hd E) in U. discriminate.
Qed.

End Tame.

Lemma tame_call (c : db_call) : tame (call c).
Proof.
  intros d tr e tr' Hd H. unfold call in H.
  destruct (drv_raises d tr c) as [e0|] eqn:E; [|discriminate].
  injection H as <- _. exact (Hd tr c e0 E).
Qed.

Lemma tame_fetchall : tame fetchall.
Proof.
  intros d tr e tr' Hd H. unfold fetchall in H.
  destruct (drv_raises d tr Fetchall) as [e0|] eqn:E; [|discriminate].
  injection H as <- _. exact (Hd tr Fetchall e0 E).
Qed.

Lemma tame_description_names : tame description_names.
Proof.
  intros d tr e tr' _ H. unfold description_names in H.
  destruct (drv_description d tr); [discriminate|]. now injection H as <- _.
Qed.

Lemma tame_get_connection (c : AzureSQLConnector) : tame (get_connection c).
Proof.
  unfold get_connection. destruct (connection_string c) as [cs|];
    [|now apply tame_raise].
  destruct (negb (truthy (Some cs))); [now apply tame_raise|].
  apply tame_try_except; [apply tame_call|]. intros e U d tr e' tr' Hd H.
  unfold bind, log_error, raise in H. now injection H as <- _.
Qed.

Lemma tame_with {A} (mgr : M unit) (body : M A) :
  tame mgr -> tame body -> tame (with_ mgr body).
Proof.
  intros Hm Hb d tr e tr' Hd H. unfold with_ in H.
  destruct (mgr d tr) as [[[]|e0] tr1] eqn:Em.
  - destruct (body d tr1) as [r tr2] eqn:Eb. unfold call in H.
    destruct (drv_raises d tr2 (Exit (exc_of r))) as [e1|] eqn:Ex.
    + injection H as <- _. exact (Hd _ _ e1 Ex).
    + injection H as -> _. exact (Hb d tr1 e tr2 Hd Eb).
  - injection H as <- _. exact (Hm d tr e0 tr1 Hd Em).
Qed.

Ltac tame_auto :=
  repeat first
    [ progress intros
    | apply tame_with
    | apply tame_get_connection
    | apply tame_bind
    | apply tame_if
    | apply tame_call
    | apply tame_fetchall
    | apply tame_description_names
    | apply tame_ret
    | apply tame_lift;
      first [ apply tame_py_strip | apply tame_py_join | apply tame_py_iter
            | apply tame_json_dumps | apply tame_row_items
            | apply tame_schema_entries ] ].

(** On a driver that raises only exceptions under [Exception], so does
    every guarded region. *)
Lemma pipeline_tame
      (c : AzureSQLConnector) (name : string) (arguments : dict)
      (body : M (list TextContent)) :
  pipeline c name arguments = Some body -> tame body.
Proof.
  unfold pipeline.
  repeat (destruct (String.eqb name _);
          [intros H; injection H as <-;
           unfold execute_query_body, get_tables_body, get_table_schema_body,
             create_table_body, insert_data_body; tame_auto|]).
  discriminate.
Qed.








(* ================================================================= *)
(** ** Connects and exits *)

Lemma count_app (p : event -> bool) (t1 t2 : trace) :
  count p (t1 ++ t2)%list = count p t1 + count p t2.
Proof. unfold count. now rewrite filter_app, List.length_app. Qed.

Lemma count_operations (p : event -> bool) (mid : trace) :
  (forall e, operation e -> p e = false) ->
  Forall operation mid -> count p mid = 0.
Proof.
  intros Hp F. unfold count. induction F as [|e mid He _ IH]; [reflexivity|].
  cbn [filter]. now rewrite (Hp e He).
Qed.

Lemma operation_not_connect (e : event) : operation e -> is_connect e = false.
Proof. destruct e as [[] ?| |]; simpl; intros H; now try reflexivity. Qed.

Lemma operation_not_connected (e : event) : operation e -> is_connected e = false.
Proof. destruct e as [[] []| |]; simpl; intros H; now try reflexivity. Qed.

Lemma operation_not_scope_exit (e : event) : operation e -> is_scope_exit e = false.
Proof. destruct e as [[] ?| |]; simpl; intros H; now try reflexivity. Qed.

(** What the three forms of a trace say about connections. *)
Lemma call_shape_counts (tr : trace) :
  call_shape tr ->
  count is_connect tr <= 1
  /\ count is_connected tr = count is_scope_exit tr
  /\ (Exists operation tr -> count is_connected tr = 1)
  /\ (count is_connected tr = 1 ->
      exists cs mid x r,
        tr = (Called (Connect cs) None :: mid ++ [Called (Exit x) r])%list
        /\ Forall operation mid).
Proof.
  intros [|cs e|cs mid x r F].
  - repeat split; auto; [|discriminate].
    intros H. now apply Exists_nil in H.
  - unfold refused. destruct (under_exception e);
      (repeat split; auto; [|discriminate]);
      intros H; repeat (apply Exists_cons in H; destruct H as [H|H]; [elim H|]);
      now apply Exists_nil in H.
  - change (Called (Connect cs) None :: mid ++ [Called (Exit x) r])%list
      with ([Called (Connect cs) None] ++ mid ++ [Called (Exit x) r])%list.
    rewrite !count_app.
    rewrite (count_operations is_connect mid operation_not_connect F),
            (count_operations is_connected mid operation_not_connected F),
            (count_operations is_scope_exit mid operation_not_scope_exit F).
    cbn. repeat split; auto. intros _. now exists cs, mid, x, r.
Qed.

(** X18. In the trace of any tool call the driver is asked to connect
    at most once, and the [with] exits made are as many as the connects
    that returned a connection.  A call that reaches a driver operation
    (cursor, execute, fetch, commit) made exactly one such connect; and
    after such a connect the trace opens with it, holds only operations,
    and ends with the [__exit__] of the [with] block, whatever the
    outcome of the operations. *)
Theorem one_connect_and_one_exit_per_call :
  forall (c : AzureSQLConnector) (d : Driver) (name : string) (arguments : option dict),
    let tr := snd (run d (handle_call_tool c name arguments)) in
    count is_connect tr <= 1
    /\ count is_connected tr = count is_scope_exit tr
    /\ (Exists operation tr -> count is_connected tr = 1)
    /\ (count is_connected tr = 1 ->
        exists cs mid x r,
          tr = (Called (Connect cs) None :: mid ++ [Called (Exit x) r])%list
          /\ Forall operation mid).
Proof.
  intros c d name arguments tr. apply call_shape_counts. subst tr.
  rewrite handle_call_tool_run.
  destruct (pipeline c name (or_empty arguments)) as [body|] eqn:Hp.
  - cbn [snd]. exact (pipeline_shape c d name _ body Hp).
  - constructor.
Qed.

Lemma one_connect_and_one_exit_per_call_witness :
  let tr := snd (run Sample.rejecting_db
                     (handle_call_tool Sample.sample_connector "create_table"
                        (Some [("table_name", PStr "t"); ("columns", PStr "id INT")]))) in
  count is_connected tr = 1
  /\ exists cs mid x r,
       tr = (Called (Connect cs) None :: mid ++ [Called (Exit x) r])%list
       /\ Forall operation mid.
Proof.
  intros tr.
  assert (H : Exists operation tr) by (right; left; exact I).
  pose proof (one_connect_and_one_exit_per_call
                Sample.sample_connector Sample.rejecting_db "create_table"
                (Some [("table_name", PStr "t"); ("columns", PStr "id INT")]))
    as (_ & _ & Hop & Hshape).
  split; [exact (Hop H) | exact (Hshape (Hop H))].
Defined.

(* ================================================================= *)
(** ** Stepping through a run *)

Lemma bind_call {B} (c : db_call) (k : unit -> M B) (d : Driver) (tr : trace) :
  bind (call c) k d tr =
    match drv_raises d tr c with
    | None => k tt d (tr ++ [Called c None])%list
    | Some e => (Exc e, (tr ++ [Called c (Some e)])%list)
    end.
Proof. unfold bind, call. now destruct (drv_raises d tr c). Qed.

Lemma bind_lift {A B} (r : result A) (k : A -> M B) (d : Driver) (tr : trace) :
  bind (lift r) k d tr =
    match r with Ok a => k a d tr | Exc e => (Exc e, tr) end.
Proof. unfold bind, lift. now destruct r. Qed.

Lemma bind_fetchall {B} (k : list (list pyval) -> M B) (d : Driver) (tr : trace) :
  bind fetchall k d tr =
    match drv_raises d tr Fetchall with
    | None => k (drv_rows d tr) d (tr ++ [Called Fetchall None])%list
    | Some e => (Exc e, (tr ++ [Called Fetchall (Some e)])%list)
    end.
Proof. unfold bind, fetchall. now destruct (drv_raises d tr Fetchall). Qed.

Lemma bind_description_names {B} (k : list string -> M B) (d : Driver) (tr : trace) :
  bind description_names k d tr =
    match drv_description d tr with
    | Some names => k names d tr
    | None => (Exc (TypeError "'NoneType' object is not iterable"), tr)
    end.
Proof. unfold bind, description_names. now destruct (drv_description d tr). Qed.

Lemma with_connection_run {A} (c : AzureSQLConnector) (body : M A) (d : Driver) :
  with_ (get_connection c) body d [] =
    match connection_string c with
    | None => (Exc (ValueError "Connection string not configured"), [])
    | Some cs =>
        if String.eqb cs "" then
          (Exc (ValueError "Connection string not configured"), [])
        else
          match drv_raises d [] (Connect cs) with
          | Some e => (Exc e, refused cs e)
          | None => close_scope d (body d [Called (Connect cs) None])
          end
    end.
Proof.
  unfold with_, get_connection.
  destruct (connection_string c) as [cs|]; [|reflexivity].
  cbn [truthy]. destruct (String.eqb cs ""); cbn [negb]; [reflexivity|].
  unfold try_except, call at 1, bind, log_error, raise, close_scope, refused.
  cbn [app].
  destruct (drv_raises d [] (Connect cs)) as [e|];
    [now destruct (under_exception e)|].
  destruct (body d _) as [r tr2]. cbn [fst snd]. unfold call.
  now destruct (drv_raises d tr2 _).
Qed.

(** One more case distinction on what the run depends on. *)
Ltac split_run :=
  match goal with
  | |- context [match drv_raises ?d ?t ?c with _ => _ end] =>
      destruct (drv_raises d t c) eqn:?
  | |- context [if String.eqb ?a ?b then _ else _] =>
      destruct (String.eqb_spec a b)
  | |- context [match connection_string ?c with _ => _ end] =>
      destruct (connection_string c) eqn:?
  | |- context [match drv_description ?d ?t with _ => _ end] =>
      destruct (drv_description d t) eqn:?
  | |- context [if under_exception ?e then _ else _] =>
      destruct (under_exception e) eqn:?
  end.

(** One more step of the body. *)
Ltac run_step :=
  first [ rewrite bind_call | rewrite bind_lift | rewrite bind_fetchall
        | rewrite bind_description_names ];
  cbn [app].

(** *** The statement reaches the driver *)

Ltac only_appends :=
  repeat first
    [ progress intros
    | apply emits_bind
    | apply emits_if
    | apply emits_call
    | apply emits_fetchall
    | apply emits_description_names
    | apply emits_lift
    | apply emits_ret
    | exact I ].

Lemma opens_with_close_scope {A} (d : Driver) (t : trace) (out : result A * trace) :
  opens_with t (snd out) -> opens_with t (snd (close_scope d out)).
Proof.
  intros (rest & E). unfold close_scope.
  destruct (drv_raises d (snd out) _); cbn [snd]; rewrite E, <- app_assoc;
    eexists; reflexivity.
Qed.

(** A [with] block that asks for a cursor and then executes a statement
    hands the statement to the driver as soon as the driver has given
    the connection and the cursor. *)
Lemma execute_is_handed {A}
      (c : AzureSQLConnector) (d : Driver) (cs : string)
      (sql : pyval) (ps : list pyval) (k : M A) :
  connection_string c = Some cs -> cs <> "" -> gives_cursor d cs ->
  emits (fun _ => True) k ->
  opens_with (handed d cs sql ps)
             (snd (with_ (get_connection c)
                         (call Cursor ;; call (Execute sql ps) ;; k) d [])).
Proof.
  intros Hcs Hne [Hconn Hcur] Hk. rewrite with_connection_run, Hcs.
  destruct (String.eqb_spec cs ""); [contradiction|]. rewrite Hconn.
  apply opens_with_close_scope. run_step. rewrite Hcur. run_step.
  unfold handed.
  destruct (drv_raises d _ (Execute sql ps)) as [e|].
  - exists []. cbn [snd]. now rewrite app_nil_r.
  - destruct (Hk d [Called (Connect cs) None; Called Cursor None;
                    Called (Execute sql ps) None]) as (ev & E & _).
    exists ev. exact E.
Qed.

Lemma insert_data_is_handed
      (c : AzureSQLConnector) (d : Driver) (cs : string)
      (table_name columns values : pyval) (columns_str : string)
      (items : list pyval) :
  connection_string c = Some cs -> cs <> "" -> gives_cursor d cs ->
  py_join ", " columns = Ok columns_str -> py_iter values = Ok items ->
  opens_with
    (handed d cs
       (PStr (insert_sql table_name columns_str
                (join ", " (map (fun _ => "?") items))))
       [values])
    (snd (run d (insert_data_body c table_name columns values))).
Proof.
  intros Hcs Hne [Hconn Hcur] Hj Hi. unfold run, insert_data_body.
  rewrite with_connection_run, Hcs.
  destruct (String.eqb_spec cs ""); [contradiction|]. rewrite Hconn.
  apply opens_with_close_scope. run_step. rewrite Hcur.
  run_step. rewrite Hj. run_step. rewrite Hi. cbn zeta. run_step.
  unfold handed.
  destruct (drv_raises d _ (Execute _ [values])) as [e|].
  - exists []. cbn [snd]. now rewrite app_nil_r.
  - run_step. destruct (drv_raises d _ Commit); cbn [snd]; eexists; reflexivity.
Qed.

(** Every tool hands the driver the statement it builds from its
    arguments, with the bind parameters that go with it. *)
Lemma pipeline_hands_its_statement
      (c : AzureSQLConnector) (d : Driver) (name : string) (arguments : dict)
      (cs : string) (sql : pyval) (ps : list pyval) (body : M (list TextContent)) :
  connection_string c = Some cs -> cs <> "" -> gives_cursor d cs ->
  statement_of name arguments = Some (Ok (sql, ps)) ->
  pipeline c name arguments = Some body ->
  opens_with (handed d cs sql ps) (snd (run d body)).
Proof.
  intros Hcs Hne Hg. unfold statement_of, pipeline.
  repeat (destruct (String.eqb name _);
          [intros Hs Hb; injection Hb as <-; injection Hs as <- <-;
           unfold run, execute_query_body, get_tables_body, get_table_schema_body,
             create_table_body;
           apply execute_is_handed; auto; only_appends|]).
  destruct (String.eqb name _); [|discriminate].
  intros Hs Hb. injection Hb as <-.
  destruct (py_join ", " _) as [columns_str|] eqn:Hj; [|discriminate].
  destruct (py_iter _) as [items|] eqn:Hi; [|discriminate].
  injection Hs as <- <-. now apply insert_data_is_handed.
Qed.

Lemma tool_hands_its_statement
      (c : AzureSQLConnector) (d : Driver) (name : string) (arguments : option dict)
      (cs : string) (sql : pyval) (ps : list pyval) :
  connection_string c = Some cs -> cs <> "" -> gives_cursor d cs ->
  statement_of name (or_empty arguments) = Some (Ok (sql, ps)) ->
  opens_with (handed d cs sql ps) (snd (run d (handle_call_tool c name arguments))).
Proof.
  intros Hcs Hne Hg Hs. rewrite handle_call_tool_run.
  destruct (pipeline c name (or_empty arguments)) as [body|] eqn:Hp.
  - cbn [snd]. now apply (pipeline_hands_its_statement c d name (or_empty arguments)).
  - exfalso. revert Hs Hp. unfold statement_of, pipeline.
    repeat (destruct (String.eqb name _); [intros _ Hp; discriminate Hp|]).
    discriminate.
Qed.

(* ================================================================= *)
(** ** Row-producing or effect-only *)

Lemma upper_cons (c : ascii) (s : string) :
  upper (String c s) = String (upper_char c) (upper s).
Proof. reflexivity. Qed.

Lemma upper_char_is (c u l : ascii) :
  In (u, l) [("S", "s"); ("E", "e"); ("L", "l"); ("C", "c"); ("T", "t")]%char ->
  (if ascii_dec u (upper_char c) then true else false)
  = (Ascii.eqb c u || Ascii.eqb c l)%bool.
Proof.
  intros H. simpl in H.
  repeat (destruct H as [H|H];
          [injection H as <- <-;
           destruct c as [[] [] [] [] [] [] [] []]; reflexivity|]).
  contradiction.
Qed.

Lemma prefix_upper_cons (u l : ascii) (us s : string) (c : ascii) :
  In (u, l) [("S", "s"); ("E", "e"); ("L", "l"); ("C", "c"); ("T", "t")]%char ->
  String.prefix (String u us) (upper (String c s))
  = ((Ascii.eqb c u || Ascii.eqb c l) && String.prefix us (upper s))%bool.
Proof.
  intros H. rewrite upper_cons. cbn [String.prefix].
  rewrite <- (upper_char_is c u l H).
  now destruct (ascii_dec u (upper_char c)).
Qed.

Lemma upper_exact_cons (c : ascii) (s : string) :
  upper_exact (String c s) = (upper_points c ++ upper_exact s)%list.
Proof. reflexivity. Qed.

(** Against a letter that is not S, the capital of one code point
    matches as [upper_char] says. *)
Lemma starts_with_upper_point (c u : ascii) (t p : list N) :
  In u ["E"; "L"; "C"; "T"]%char ->
  starts_with (upper_points c ++ t) (N_of_ascii u :: p)
  = (Ascii.eqb (upper_char c) u && starts_with t p)%bool.
Proof.
  intros H. simpl in H.
  repeat (destruct H as [<-|H];
          [destruct c as [[] [] [] [] [] [] [] []]; reflexivity|]).
  contradiction.
Qed.

(** Against S followed by E, so does it: the "SS" of the sharp s fails
    at the E. *)
Lemma starts_with_upper_point_S (c : ascii) (t p : list N) :
  starts_with (upper_points c ++ t) (83 :: 69 :: p)%N
  = (Ascii.eqb (upper_char c) "S" && starts_with t (69 :: p)%N)%bool.
Proof. destruct c as [[] [] [] [] [] [] [] []]; reflexivity. Qed.

Lemma startswith_cons (c u : ascii) (s p : string) :
  startswith (String c s) (String u p) = (Ascii.eqb c u && startswith s p)%bool.
Proof.
  unfold startswith. cbn [String.prefix].
  destruct (ascii_dec u c) as [->|N].
  - now rewrite Ascii.eqb_refl.
  - destruct (Ascii.eqb_spec c u); [congruence | reflexivity].
Qed.

(** The test of [execute_query] is the same with the exact capitals of
    every code point as with [upper]. *)
Lemma select_test_is_exact (s : string) :
  starts_with (upper_exact s) (points "SELECT") = startswith (upper s) "SELECT".
Proof.
  change (points "SELECT") with [83; 69; 76; 69; 67; 84]%N.
  destruct s as [|c1 s]; [reflexivity|].
  rewrite upper_exact_cons, starts_with_upper_point_S, upper_cons, startswith_cons.
  f_equal.
  destruct s as [|c2 s]; [reflexivity|].
  rewrite upper_exact_cons, upper_cons, startswith_cons.
  rewrite (starts_with_upper_point c2 "E") by (simpl; auto). f_equal.
  destruct s as [|c3 s]; [reflexivity|].
  rewrite upper_exact_cons, upper_cons, startswith_cons.
  rewrite (starts_with_upper_point c3 "L") by (simpl; auto). f_equal.
  destruct s as [|c4 s]; [reflexivity|].
  rewrite upper_exact_cons, upper_cons, startswith_cons.
  rewrite (starts_with_upper_point c4 "E") by (simpl; auto). f_equal.
  destruct s as [|c5 s]; [reflexivity|].
  rewrite upper_exact_cons, upper_cons, startswith_cons.
  rewrite (starts_with_upper_point c5 "C") by (simpl; auto). f_equal.
  destruct s as [|c6 s]; [reflexivity|].
  rewrite upper_exact_cons, upper_cons, startswith_cons.
  rewrite (starts_with_upper_point c6 "T") by (simpl; auto). f_equal.
  unfold startswith. now destruct (upper_exact s), (upper s).
Qed.

(** The test of the source, [query.strip().upper().startswith("SELECT")],
    is the classification the spec words. *)
Lemma select_test_agrees (q : string) :
  startswith (upper (strip q)) "SELECT" = begins_with_select q.
Proof.
  unfold startswith, begins_with_select. generalize (strip q) as s. intros s.
  destruct s as [|c1 s]; [reflexivity|].
  rewrite prefix_upper_cons with (l := "s"%char) by (simpl; auto 10).
  cbn [begins_with_token]. f_equal.
  destruct s as [|c2 s]; [reflexivity|].
  rewrite prefix_upper_cons with (l := "e"%char) by (simpl; auto 10).
  cbn [begins_with_token]. f_equal.
  destruct s as [|c3 s]; [reflexivity|].
  rewrite prefix_upper_cons with (l := "l"%char) by (simpl; auto 10).
  cbn [begins_with_token]. f_equal.
  destruct s as [|c4 s]; [reflexivity|].
  rewrite prefix_upper_cons with (l := "e"%char) by (simpl; auto 10).
  cbn [begins_with_token]. f_equal.
  destruct s as [|c5 s]; [reflexivity|].
  rewrite prefix_upper_cons with (l := "c"%char) by (simpl; auto 10).
  cbn [begins_with_token]. f_equal.
  destruct s as [|c6 s]; [reflexivity|].
  rewrite prefix_upper_cons with (l := "t"%char) by (simpl; auto 10).
  cbn [begins_with_token]. f_equal.
  now destruct (upper s).
Qed.

Lemma map_result_total {A B} (f : A -> result B) (xs : list A) :
  Forall (fun x => exists y, f x = Ok y) xs -> exists ys, map_result f xs = Ok ys.
Proof.
  induction 1 as [|x xs (y & Hy) _ (ys & Hys)]; cbn [map_result].
  - now exists [].
  - rewrite Hy, Hys. now exists (y :: ys).
Qed.

(** With [default=str] every value has a JSON text. *)
Lemma json_encode_default_total (v : pyval) :
  forall lvl, exists s, json_encode true lvl v = Ok s.
Proof.
  induction v as [|b|z|r|s|l IH|kvs IH|ty s] using pyval_nested_ind;
    intros lvl; try (eexists; reflexivity).
  - destruct l as [|x l]; [eexists; reflexivity|].
    cbn [json_encode].
    destruct (map_result_total (json_encode true (S lvl)) (x :: l)) as (ts & ->).
    + eapply Forall_impl; [|exact IH]. intros a Ha. apply Ha.
    + eexists; reflexivity.
  - destruct kvs as [|kv kvs]; [eexists; reflexivity|].
    cbn [json_encode].
    match goal with
    | |- context [map_result ?f (kv :: kvs)] =>
        destruct (map_result_total f (kv :: kvs)) as (ts & ->)
    end.
    + eapply Forall_impl; [|exact IH]. intros [k x] Ha. cbn [snd] in Ha.
      destruct (Ha (S lvl)) as (t & ->). eexists; reflexivity.
    + eexists; reflexivity.
Qed.

Ltac no_execute :=
  unfold nothing_executed; cbn [fst snd exc_of app];
  let H := fresh in
  intros ? ? H; simpl in H;
  repeat (destruct H as [H|H]; [discriminate|]); exact H.

Ltac early_failure :=
  left; unfold failed_early, close_scope, refused; cbn [fst snd exc_of app];
  repeat split_run; (split; [no_execute | eexists; reflexivity]).

Lemma execute_query_body_cases
      (c : AzureSQLConnector) (d : Driver) (q : string) (ps : pyval) :
  failed_early (run d (execute_query_body c (PStr q) ps))
  \/ exists cs,
       let t3 := executed cs (PStr q) [ps] in
       run d (execute_query_body c (PStr q) ps) =
         close_scope d
           (if begins_with_select q then fetch_branch d t3
            else commit_branch d t3 "Query executed successfully.").
Proof.
  unfold run, execute_query_body. rewrite with_connection_run.
  repeat split_run; try early_failure.
  run_step. split_run; [early_failure|].
  run_step. split_run; [early_failure|].
  right. exists s. cbn zeta. f_equal.
  run_step. cbn [py_strip]. rewrite select_test_agrees.
  destruct (begins_with_select q).
  - unfold fetch_branch, executed. run_step. split_run; [reflexivity|].
    run_step. split_run; [|reflexivity].
    run_step. unfold dump_rows. now destruct (json_dumps _ _).
  - unfold commit_branch, executed. run_step. now split_run.
Qed.



(** A statement text that opens with a no-break space. *)
Example select_after_a_no_break_space :
  snd (run Sample.one_row_db
           (execute_query Sample.sample_connector
              [("query", PStr (String (ascii_of_nat 160) "SELECT 1"))]))
  = (executed Sample.full_connection_string
              (PStr (String (ascii_of_nat 160) "SELECT 1")) [PList []]
       ++ [Called Fetchall None; Called (Exit None) None])%list.
Proof. vm_compute. reflexivity. Qed.

Example select_1_as_x :
  run Sample.one_row_db
      (execute_query Sample.sample_connector
                     [("query", PStr "SELECT 1 AS x"); ("parameters", PList [])])
  = (Ok [mkTextContent "text"
           ("Query executed successfully." ++ newline ++ "Results:" ++ newline
              ++ "[" ++ newline ++ "  {" ++ newline ++ "    "
              ++ String quote "x" ++ String quote ": 1" ++ newline
              ++ "  }" ++ newline ++ "]")],
     (executed Sample.full_connection_string (PStr "SELECT 1 AS x") [PList []]
        ++ [Called Fetchall None; Called (Exit None) None])%list).
Proof. vm_compute. reflexivity. Qed.

(* ================================================================= *)
(** ** Effect-only statements *)

Lemma create_table_body_cases
      (c : AzureSQLConnector) (d : Driver) (table_name columns : pyval) :
  failed_early (run d (create_table_body c table_name columns))
  \/ exists cs,
       run d (create_table_body c table_name columns) =
         close_scope d
           (commit_branch d
              (executed cs (PStr (create_table_sql table_name columns)) [])
              (table_created table_name)).
Proof.
  unfold run, create_table_body. rewrite with_connection_run.
  repeat split_run; try early_failure.
  run_step. split_run; [early_failure|].
  cbn zeta. run_step. split_run; [early_failure|].
  right. exists s. f_equal.
  unfold commit_branch, executed, create_table_sql, table_created.
  run_step. now split_run.
Qed.

Lemma insert_data_body_cases
      (c : AzureSQLConnector) (d : Driver) (table_name columns values : pyval) :
  failed_early (run d (insert_data_body c table_name columns values))
  \/ exists cs columns_str items,
       py_join ", " columns = Ok columns_str
       /\ py_iter values = Ok items
       /\ run d (insert_data_body c table_name columns values) =
          close_scope d
            (commit_branch d
               (executed cs
                  (PStr (insert_sql table_name columns_str
                           (join ", " (map (fun _ => "?") items))))
                  [values])
               (data_inserted table_name)).
Proof.
  unfold run, insert_data_body. rewrite with_connection_run.
  repeat split_run; try early_failure.
  run_step. split_run; [early_failure|].
  run_step. destruct (py_join ", " columns) as [columns_str|e]; [|early_failure].
  run_step. destruct (py_iter values) as [items|e]; [|early_failure].
  cbn zeta. run_step. split_run; [early_failure|].
  right. exists s, columns_str, items. repeat split. f_equal.
  unfold commit_branch, executed, data_inserted. run_step. now split_run.
Qed.

Lemma commit_branch_committed
      (d : Driver) (cs : string) (sql : pyval) (ps : list pyval)
      (failure success : string) :
  (forall e, failure ++ exc_str e <> success) ->
  committed (answered failure
               (close_scope d (commit_branch d (executed cs sql ps) success)))
            success.
Proof.
  intros Hne. unfold committed, answered, respond, commit_branch, close_scope.
  destruct (drv_raises d (executed cs sql ps) Commit) as [e|];
    cbn [fst snd exc_of];
    match goal with
    | |- context [drv_raises d ?t (Exit ?x)] =>
        destruct (drv_raises d t (Exit x)) as [e'|]
    end; cbn [fst snd]; rewrite <- app_assoc; cbn [app]; (split;
    [ intros sql' ps' H; simpl in H;
      repeat (destruct H as [H|H]; [try discriminate|]); [|contradiction];
      injection H as <- <-; do 4 eexists; reflexivity
    | intros H;
      first [ do 3 eexists; reflexivity
            | destruct (under_exception e');
              [injection H as H; now elim (Hne _ H) | discriminate]
            | destruct (under_exception e);
              [injection H as H; now elim (Hne _ H) | discriminate] ] ]).
Qed.

Lemma failed_early_committed
      (failure success : string) (out : result (list TextContent) * trace) :
  (forall e, failure ++ exc_str e <> success) ->
  failed_early out -> committed (answered failure out) success.
Proof.
  intros Hne (N & e & He). unfold committed, answered, respond.
  cbn [fst snd]. split.
  - intros sql ps H. now elim (N sql ps).
  - rewrite He. intros H. destruct (under_exception e); [|discriminate].
    injection H as H. now elim (Hne _ H).
Qed.

(** C4. In [execute_query] on a statement text that does not begin with
    SELECT, in [create_table] and in [insert_data], a statement that the
    driver executed without error is followed at once by [commit] on the
    same connection, and the success response of the tool is returned
    only from a run whose commit and closing raised nothing.  Each of
    the three hands its statement to the driver as soon as the driver
    has given the connection and the cursor ([insert_data] when its
    statement could be built), so that a statement the driver executes
    without error is one the run has executed. *)
Theorem effect_only_statements_are_committed :
  forall (c : AzureSQLConnector) (d : Driver) (arguments : dict),
    (forall q,
        dict_get arguments "query" (PStr "") = PStr q ->
        begins_with_select q = false ->
        committed (run d (execute_query c arguments))
                  "Query executed successfully.")
    /\ committed (run d (create_table c arguments))
                 (table_created (dict_get arguments "table_name" (PStr "")))
    /\ committed (run d (insert_data c arguments))
                 (data_inserted (dict_get arguments "table_name" (PStr "")))
    /\ (forall cs,
          connection_string c = Some cs -> cs <> "" -> gives_cursor d cs ->
          opens_with (handed d cs (dict_get arguments "query" (PStr ""))
                             [dict_get arguments "parameters" (PList [])])
                     (snd (run d (execute_query c arguments)))
          /\ opens_with
               (handed d cs
                  (PStr (create_table_sql
                           (dict_get arguments "table_name" (PStr ""))
                           (dict_get arguments "columns" (PStr ""))))
                  [])
               (snd (run d (create_table c arguments)))
          /\ (forall columns_str items,
                py_join ", " (dict_get arguments "columns" (PList [])) = Ok columns_str ->
                py_iter (dict_get arguments "values" (PList [])) = Ok items ->
                opens_with
                  (handed d cs
                     (PStr (insert_sql (dict_get arguments "table_name" (PStr ""))
                                       columns_str
                                       (join ", " (map (fun _ => "?") items))))
                     [dict_get arguments "values" (PList [])])
                  (snd (run d (insert_data c arguments))))).
Proof.
  intros c d arguments. split; [|split; [|split]].
  4: { intros cs Hcs Hne Hg. split; [|split].
       - unfold run, execute_query. rewrite try_except_ret. cbn [snd].
         exact (pipeline_hands_its_statement
                  c d "execute_query" arguments cs _ _
                  (execute_query_body c (dict_get arguments "query" (PStr ""))
                                      (dict_get arguments "parameters" (PList [])))
                  Hcs Hne Hg eq_refl eq_refl).
       - unfold run, create_table. rewrite try_except_ret. cbn [snd].
         exact (pipeline_hands_its_statement
                  c d "create_table" arguments cs _ _
                  (create_table_body c (dict_get arguments "table_name" (PStr ""))
                                     (dict_get arguments "columns" (PStr "")))
                  Hcs Hne Hg eq_refl eq_refl).
       - intros columns_str items Hj Hi.
         unfold run, insert_data. rewrite try_except_ret. cbn [snd].
         now apply (insert_data_is_handed
                      c d cs (dict_get arguments "table_name" (PStr ""))
                      (dict_get arguments "columns" (PList []))
                      (dict_get arguments "values" (PList [])) columns_str items). }
  - intros q Hq Hsel. unfold run, execute_query.
    rewrite try_except_ret, Hq.
    fold (answered "Query execution failed: "
            (execute_query_body c (PStr q)
               (dict_get arguments "parameters" (PList [])) d [])).
    assert (Hne : forall e, "Query execution failed: " ++ exc_str e
                            <> "Query executed successfully.")
      by (intros e; simpl; discriminate).
    destruct (execute_query_body_cases c d q
                (dict_get arguments "parameters" (PList []))) as [F|(cs & E)].
    + now apply failed_early_committed.
    + cbn zeta in E. unfold run in E. rewrite E, Hsel.
      now apply commit_branch_committed.
  - unfold run, create_table. rewrite try_except_ret.
    set (tn := dict_get arguments "table_name" (PStr "")).
    set (cols := dict_get arguments "columns" (PStr "")).
    fold (answered "Failed to create table: " (create_table_body c tn cols d [])).
    assert (Hne : forall e, "Failed to create table: " ++ exc_str e
                            <> table_created tn)
      by (intros e; unfold table_created; simpl; discriminate).
    destruct (create_table_body_cases c d tn cols) as [F|(cs & E)].
    + now apply failed_early_committed.
    + unfold run in E. rewrite E. now apply commit_branch_committed.
  - unfold run, insert_data. rewrite try_except_ret.
    set (tn := dict_get arguments "table_name" (PStr "")).
    set (cols := dict_get arguments "columns" (PList [])).
    set (vals := dict_get arguments "values" (PList [])).
    fold (answered "Failed to insert data: " (insert_data_body c tn cols vals d [])).
    assert (Hne : forall e, "Failed to insert data: " ++ exc_str e
                            <> data_inserted tn)
      by (intros e; unfold data_inserted; simpl; discriminate).
    destruct (insert_data_body_cases c d tn cols vals)
      as [F|(cs & columns_str & items & _ & _ & E)].
    + now apply failed_early_committed.
    + unfold run in E. rewrite E. now apply commit_branch_committed.
Qed.

Lemma effect_only_statements_are_committed_witness :
  (exists cs rc x re,
      snd (run Sample.empty_db
               (execute_query Sample.sample_connector
                              [("query", PStr "DELETE FROM orders")]))
      = (executed cs (PStr "DELETE FROM orders") [PList []]
           ++ [Called Commit rc; Called (Exit x) re])%list)
  /\ (exists cs sql ps,
         snd (run Sample.empty_db
                  (create_table Sample.sample_connector
                                [("table_name", PStr "t"); ("columns", PStr "id INT")]))
         = (executed cs sql ps
              ++ [Called Commit None; Called (Exit None) None])%list)
  /\ opens_with
       (handed Sample.empty_db Sample.full_connection_string
               (PStr "DELETE FROM orders") [PList []])
       (snd (run Sample.empty_db
                 (execute_query Sample.sample_connector
                                [("query", PStr "DELETE FROM orders")]))).
Proof.
  split; [|split].
  - destruct (effect_only_statements_are_committed
                Sample.sample_connector Sample.empty_db
                [("query", PStr "DELETE FROM orders")]) as (H & _ & _).
    apply (proj1 (H "DELETE FROM orders" eq_refl eq_refl)).
    vm_compute. right. right. left. reflexivity.
  - destruct (effect_only_statements_are_committed
                Sample.sample_connector Sample.empty_db
                [("table_name", PStr "t"); ("columns", PStr "id INT")])
      as (_ & H & _).
    apply (proj2 H). vm_compute. reflexivity.
  - destruct (effect_only_statements_are_committed
                Sample.sample_connector Sample.empty_db
                [("query", PStr "DELETE FROM orders")]) as (_ & _ & _ & H).
    apply (H Sample.full_connection_string);
      [reflexivity | discriminate | split; reflexivity].
Defined.

(* ================================================================= *)
(** ** The schema of a table *)

Lemma get_table_schema_body_cases
      (c : AzureSQLConnector) (d : Driver) (table_name : pyval) :
  failed_early (run d (get_table_schema_body c table_name))
  \/ exists cs,
       run d (get_table_schema_body c table_name) =
         close_scope d
           (schema_branch d (executed cs (PStr get_table_schema_sql) [table_name])
                          table_name).
Proof.
  unfold run, get_table_schema_body. rewrite with_connection_run.
  repeat split_run; try early_failure.
  run_step. split_run; [early_failure|].
  run_step. split_run; [early_failure|].
  right. exists s. f_equal.
  unfold schema_branch, executed, schema_found.
  run_step. split_run; [reflexivity|].
  run_step. destruct (map_result schema_entry _); [|reflexivity].
  run_step. now destruct (json_dumps false _).
Qed.

Lemma close_scope_trace {A} (d : Driver) (out : result A * trace) :
  exists r,
    snd (close_scope d out) = (snd out ++ [Called (Exit (exc_of (fst out))) r])%list
    /\ (r = None -> fst (close_scope d out) = fst out).
Proof.
  unfold close_scope. destruct (drv_raises d (snd out) _) as [e|]; cbn [fst snd].
  - exists (Some e). split; [reflexivity | discriminate].
  - exists None. split; reflexivity.
Qed.

(** C9. When the catalog query of [get_table_schema] was executed
    without error, no driver call of the run raised, and the result set
    has no row, the response is the success text "Schema for table
    '<name>':", a line break, and the empty JSON array. *)
Theorem empty_schema_is_a_success :
  forall (c : AzureSQLConnector) (d : Driver) (arguments : dict),
    let table_name := dict_get arguments "table_name" (PStr "") in
    let out := run d (get_table_schema c arguments) in
    (exists sql ps, In (Called (Execute sql ps) None) (snd out)) ->
    (forall c0 e, ~ In (Called c0 (Some e)) (snd out)) ->
    (forall cs, drv_rows d (executed cs (PStr get_table_schema_sql) [table_name]) = []) ->
    fst out =
      Ok [mkTextContent "text"
            ("Schema for table '" ++ py_str table_name ++ "':" ++ newline ++ "[]")].
Proof.
  intros c d arguments table_name out. subst out.
  unfold run, get_table_schema. rewrite try_except_ret. fold table_name.
  cbn [fst snd]. intros (sql & ps & Hex) Hquiet Hrows.
  destruct (get_table_schema_body_cases c d table_name) as [[N _]|(cs & E)];
    [now elim (N _ _ Hex)|].
  unfold run in E. rewrite E in Hquiet |- *. clear E Hex.
  destruct (close_scope_trace d
              (schema_branch d (executed cs (PStr get_table_schema_sql) [table_name])
                             table_name)) as (r & Htr & Hfst).
  rewrite Htr in Hquiet.
  destruct r as [e|].
  { exfalso. eapply Hquiet. apply in_or_app. right. left. reflexivity. }
  rewrite (Hfst eq_refl). revert Hquiet. unfold schema_branch.
  destruct (drv_raises d _ Fetchall) as [e|]; cbn [fst snd]; intros Hquiet.
  { exfalso. eapply (Hquiet Fetchall e). apply in_or_app. left. apply in_or_app.
    right. left. reflexivity. }
  now rewrite Hrows.
Qed.

Lemma empty_schema_is_a_success_witness :
  fst (run Sample.empty_db
           (get_table_schema Sample.sample_connector [("table_name", PStr "ghost")]))
  = Ok [mkTextContent "text" ("Schema for table 'ghost':" ++ newline ++ "[]")].
Proof.
  apply (empty_schema_is_a_success Sample.sample_connector Sample.empty_db
           [("table_name", PStr "ghost")]).
  - exists (PStr get_table_schema_sql), [PStr "ghost"].
    vm_compute. right. right. left. reflexivity.
  - intros c0 e H. vm_compute in H.
    repeat (destruct H as [H|H]; [discriminate|]). exact H.
  - reflexivity.
Defined.

(* ================================================================= *)
(** ** Arguments: mismatched, missing, misshapen *)

(** Two column names and one value: the statement with two names and
    one placeholder goes to the driver, and the failure in the response
    is the one the driver raised on it. *)
Lemma insert_data_mismatch_is_sent :
  List.length [PStr "a"; PStr "b"] <> List.length [PStr "1"]
  /\ run Sample.rejecting_db (insert_data Sample.sample_connector Mismatch.arguments)
     = (Ok [mkTextContent "text" "Failed to insert data: ('42000', 'syntax error')"],
        [Called (Connect Sample.full_connection_string) None;
         Called Cursor None;
         Called (Execute Mismatch.statement [PList [PStr "1"]])
                (Some (mkExc "ProgrammingError" "('42000', 'syntax error')"));
         Called (Exit (Some (mkExc "ProgrammingError" "('42000', 'syntax error')")))
                None])
  /\ ~ rejects_mismatch Sample.sample_connector Sample.rejecting_db Mismatch.arguments.
Proof.
  split; [simpl; lia|]. split; [vm_compute; reflexivity|].
  intros [_ N].
  apply (N Mismatch.statement [PList [PStr "1"]]
           (Some (mkExc "ProgrammingError" "('42000', 'syntax error')"))).
  vm_compute. right. right. left. reflexivity.
Qed.

(** What Python makes of arguments of another shape. *)
Example columns_given_as_text :
  py_join ", " (PStr "ab") = Ok "a, b"
  /\ py_join ", " (PList [PStr "a"; PInt 3])
     = Exc (TypeError "sequence item 1: expected str instance, int found")
  /\ py_join ", " PNone = Exc (TypeError "can only join an iterable")
  /\ py_iter (PInt 3) = Exc (TypeError "'int' object is not iterable")
  /\ py_str (PList [PStr "t"; PInt (-1); PNone]) = "['t', -1, None]".
Proof. repeat split. Qed.

Lemma join_items_texts (i : nat) (cols : list string) :
  join_items i (map PStr cols) = Ok cols.
Proof.
  revert i. induction cols as [|s cols IH]; intros i; cbn [map join_items].
  - reflexivity.
  - now rewrite IH.
Qed.

Lemma py_join_texts (sep : string) (cols : list string) :
  py_join sep (PList (map PStr cols)) = Ok (join sep cols).
Proof. unfold py_join. cbn [py_iter]. now rewrite join_items_texts. Qed.

(** C1, as the code has it.  In [insert_data] with a list of column
    names and a list of values of any two lengths, once the connection
    and the cursor are there the statement sent is
    [INSERT INTO <table> (<names>) VALUES (<one ? per value>)], with the
    values as bind parameters; the two lengths are not compared, and
    when no driver call raises the response is the success text. *)
Theorem insert_data_sends_one_placeholder_per_value :
  forall (c : AzureSQLConnector) (d : Driver) (arguments : dict)
         (cs : string) (cols : list string) (vals : list pyval),
    connection_string c = Some cs -> cs <> "" ->
    dict_get arguments "columns" (PList []) = PList (map PStr cols) ->
    dict_get arguments "values" (PList []) = PList vals ->
    drv_raises d [] (Connect cs) = None ->
    drv_raises d [Called (Connect cs) None] Cursor = None ->
    let table_name := dict_get arguments "table_name" (PStr "") in
    let sql :=
      PStr (insert_sql table_name (join ", " cols)
                       (join ", " (repeat "?" (List.length vals)))) in
    let out := run d (insert_data c arguments) in
    (exists r rest,
        snd out = ([Called (Connect cs) None; Called Cursor None;
                    Called (Execute sql [PList vals]) r] ++ rest)%list)
    /\ ((forall c0 e, ~ In (Called c0 (Some e)) (snd out)) ->
        fst out = Ok [mkTextContent "text" (data_inserted table_name)]).
Proof.
  intros c d arguments cs cols vals Hcs Hne Hcols Hvals Hconn Hcur
         table_name sql out.
  subst out. unfold run, insert_data. rewrite try_except_ret, Hcols, Hvals.
  fold table_name. unfold insert_data_body. rewrite with_connection_run, Hcs.
  destruct (String.eqb_spec cs ""); [contradiction|]. rewrite Hconn.
  run_step. rewrite Hcur. run_step. rewrite py_join_texts.
  run_step. cbn [py_iter]. cbn zeta. rewrite map_const. fold sql.
  run_step. unfold close_scope.
  destruct (drv_raises d _ (Execute sql [PList vals])) as [e|] eqn:Ee;
    cbn [fst snd exc_of].
  - destruct (drv_raises d _ (Exit (Some e))); cbn [fst snd app];
      (split; [do 2 eexists; reflexivity|]);
      intros Hq; exfalso; apply (Hq (Execute sql [PList vals]) e);
      simpl; auto.
  - run_step. destruct (drv_raises d _ Commit) as [e|] eqn:Ec;
      cbn [fst snd exc_of].
    + destruct (drv_raises d _ (Exit (Some e))); cbn [fst snd app];
        (split; [do 2 eexists; reflexivity|]);
        intros Hq; exfalso; apply (Hq Commit e); simpl; auto 10.
    + unfold ret; cbn [fst snd exc_of].
      destruct (drv_raises d _ (Exit None)) as [e'|]; cbn [fst snd app];
        (split; [do 2 eexists; reflexivity|]); intros Hq.
      * exfalso. apply (Hq (Exit None) e'). simpl; auto 10.
      * reflexivity.
Qed.

Lemma insert_data_sends_one_placeholder_per_value_witness :
  let out := run Sample.empty_db
                 (insert_data Sample.sample_connector Mismatch.arguments) in
  (exists r rest,
      snd out = ([Called (Connect Sample.full_connection_string) None;
                  Called Cursor None;
                  Called (Execute Mismatch.statement [PList [PStr "1"]]) r]
                   ++ rest)%list)
  /\ ((forall c0 e, ~ In (Called c0 (Some e)) (snd out)) ->
      fst out = Ok [mkTextContent "text" "Data inserted into 't' successfully."]).
Proof.
  apply (insert_data_sends_one_placeholder_per_value
           Sample.sample_connector Sample.empty_db Mismatch.arguments
           Sample.full_connection_string ["a"; "b"] [PStr "1"]);
    solve [reflexivity | discriminate].
Defined.

(** [create_table] without any argument: the statement built from the
    two defaults goes to the driver. *)
Lemma create_table_without_arguments_is_sent :
  run Sample.rejecting_db (handle_call_tool Sample.sample_connector "create_table" None)
  = (Ok [mkTextContent "text" "Failed to create table: ('42000', 'syntax error')"],
     [Called (Connect Sample.full_connection_string) None;
      Called Cursor None;
      Called (Execute (PStr "CREATE TABLE  ()") [])
             (Some (mkExc "ProgrammingError" "('42000', 'syntax error')"));
      Called (Exit (Some (mkExc "ProgrammingError" "('42000', 'syntax error')")))
             None])
  /\ ~ rejects_arguments Sample.sample_connector Sample.rejecting_db
                         "create_table" None.
Proof.
  split; [vm_compute; reflexivity|].
  intros [_ N].
  apply (N (PStr "CREATE TABLE  ()") []
           (Some (mkExc "ProgrammingError" "('42000', 'syntax error')"))).
  vm_compute. right. right. left. reflexivity.
Qed.

Lemma dict_get_missing (arguments : dict) (key : string) (default : pyval) :
  missing key arguments -> dict_get arguments key default = default.
Proof.
  unfold missing. induction arguments as [|[k v] rest IH]; intros H;
    cbn [dict_get]; [reflexivity|].
  destruct (String.eqb_spec k key) as [->|_].
  - elim (H v). now left.
  - apply IH. intros w Hw. apply (H w). now right.
Qed.

Ltac no_statement :=
  unfold nothing_sent; cbn [fst snd exc_of app];
  let H := fresh in
  intros ? ? ? H; simpl in H;
  repeat (destruct H as [H|H]; [discriminate|]); exact H.

(** When the statement of [insert_data] cannot be built, nothing is
    sent and the run raises. *)
Lemma insert_data_body_unbuildable
      (c : AzureSQLConnector) (d : Driver) (table_name columns values : pyval) :
  (exists e, py_join ", " columns = Exc e) \/ (exists e, py_iter values = Exc e) ->
  let out := run d (insert_data_body c table_name columns values) in
  nothing_sent (snd out) /\ exists e, fst out = Exc e.
Proof.
  intros H out. subst out. unfold run, insert_data_body.
  rewrite with_connection_run. unfold refused.
  repeat split_run; try (split; [no_statement | eexists; reflexivity]).
  run_step. split_run.
  { unfold close_scope. cbn [fst snd exc_of app]. split_run;
      (split; [no_statement | eexists; reflexivity]). }
  run_step. destruct (py_join ", " columns) as [columns_str|e].
  - destruct H as [(e & H)|(e & H)]; [discriminate|].
    run_step. rewrite H. unfold close_scope. cbn [fst snd exc_of app].
    split_run; (split; [no_statement | eexists; reflexivity]).
  - unfold close_scope. cbn [fst snd exc_of app].
    split_run; (split; [no_statement | eexists; reflexivity]).
Qed.

(** C8, as the code has it.  Every argument that a tool's schema
    requires is read with a default, and a tool called without one of
    its arguments runs exactly as if the argument had been given with
    that default (the empty text for [query], [table_name] and the
    [columns] of [create_table]; the empty list for [parameters] and
    for the [columns] and [values] of [insert_data]).  Once the driver
    has given the connection and the cursor, the statement that the
    tool builds from the arguments so read ([statement_of]) is handed
    to the driver.  In [insert_data], when [columns] cannot be joined
    (not iterable, or an item that is not a text) or [values] is not
    iterable, no statement is sent, and on a driver that raises only
    exceptions under [Exception] the response is the failure payload of
    the tool. *)
Theorem missing_arguments_take_defaults :
  forall (c : AzureSQLConnector) (d : Driver) (arguments : dict),
    (forall tool key,
        In tool handle_list_tools -> In key (required (inputSchema tool)) ->
        exists default, In (name tool, key, default) argument_defaults)
    /\ (forall name key default,
        In (name, key, default) argument_defaults ->
        missing key arguments ->
        run d (handle_call_tool c name (Some arguments)) =
        run d (handle_call_tool c name (Some ((key, default) :: arguments))))
    /\ (forall cs name sql ps,
          connection_string c = Some cs -> cs <> "" -> gives_cursor d cs ->
          statement_of name arguments = Some (Ok (sql, ps)) ->
          opens_with (handed d cs sql ps)
                     (snd (run d (handle_call_tool c name (Some arguments)))))
    /\ ((exists e, py_join ", " (dict_get arguments "columns" (PList [])) = Exc e)
        \/ (exists e, py_iter (dict_get arguments "values" (PList [])) = Exc e) ->
        nothing_sent
          (snd (run d (handle_call_tool c "insert_data" (Some arguments))))
        /\ (raises_only_exceptions d ->
            failure_payload "insert_data"
              (fst (run d (handle_call_tool c "insert_data" (Some arguments)))))).
Proof.
  intros c d arguments. split; [|split; [|split]].
  3: { intros cs name sql ps Hcs Hne Hg Hs.
       now apply (tool_hands_its_statement c d name (Some arguments) cs). }
  - intros tool key Ht Hk. simpl in Ht.
    repeat (destruct Ht as [<-|Ht];
            [simpl in Hk;
             repeat (destruct Hk as [<-|Hk];
                     [eexists; simpl; auto 10; fail|]);
             contradiction|]).
    contradiction.
  - intros name key default Hin Hmiss.
    rewrite !handle_call_tool_run. cbn [or_empty].
    simpl in Hin.
    repeat (destruct Hin as [Hin|Hin];
            [injection Hin as <- <- <-;
             cbn [pipeline dict_get String.eqb Ascii.eqb Bool.eqb];
             rewrite ?(dict_get_missing _ _ _ Hmiss); reflexivity|]).
    contradiction.
  - intros H. rewrite handle_call_tool_run. cbn [or_empty pipeline String.eqb
      Ascii.eqb Bool.eqb fst snd].
    destruct (insert_data_body_unbuildable c d
                (dict_get arguments "table_name" (PStr "")) _ _ H) as (N & e & He).
    split; [exact N|]. intros Hd. unfold respond.
    destruct (run d (insert_data_body c _ _ _)) as [r tr] eqn:Hr.
    cbn [fst] in He |- *. subst r.
    rewrite (pipeline_tame c "insert_data" arguments _ eq_refl d [] e tr Hd Hr).
    now exists (exc_str e).
Qed.

Lemma missing_arguments_take_defaults_witness :
  run Sample.empty_db
      (handle_call_tool Sample.sample_connector "create_table"
                        (Some [("table_name", PStr "t")]))
  = run Sample.empty_db
        (handle_call_tool Sample.sample_connector "create_table"
                          (Some [("columns", PStr ""); ("table_name", PStr "t")]))
  /\ opens_with
       (handed Sample.rejecting_db Sample.full_connection_string
               (PStr "CREATE TABLE  ()") [])
       (snd (run Sample.rejecting_db
                 (handle_call_tool Sample.sample_connector "create_table" (Some []))))
  /\ nothing_sent
       (snd (run Sample.empty_db
                 (handle_call_tool Sample.sample_connector "insert_data"
                                   (Some [("columns", PInt 3)]))))
  /\ failure_payload "insert_data"
       (fst (run Sample.empty_db
                 (handle_call_tool Sample.sample_connector "insert_data"
                                   (Some [("columns", PInt 3)])))).
Proof.
  split; [|split].
  - apply (proj1 (proj2 (missing_arguments_take_defaults
                           Sample.sample_connector Sample.empty_db
                           [("table_name", PStr "t")]))
             "create_table" "columns" (PStr "")).
    + simpl. auto 10.
    + intros v [H|[]]. discriminate.
  - apply (proj1 (proj2 (proj2 (missing_arguments_take_defaults
                                  Sample.sample_connector Sample.rejecting_db [])))
             Sample.full_connection_string "create_table");
      [reflexivity | discriminate | split; reflexivity | reflexivity].
  - destruct (proj2 (proj2 (proj2 (missing_arguments_take_defaults
                                     Sample.sample_connector Sample.empty_db
                                     [("columns", PInt 3)]))))
      as [N P]; [left; eexists; reflexivity|].
    split; [exact N|]. apply P. intros tr c0 e H. discriminate H.
Defined.

(* ================================================================= *)
(** ** Before the first statement *)

(** X1. On a connector whose connection string is missing or empty,
    every declared tool answers with its failure prefix followed by
    "Connection string not configured", and the driver is never
    called. *)
Theorem unconfigured_connector_never_calls_the_driver :
  forall (c : AzureSQLConnector) (d : Driver) (name : string) (arguments : option dict),
    unconfigured c ->
    In name tool_names ->
    run d (handle_call_tool c name arguments) =
      (Ok [mkTextContent "text"
             (failure_prefix name ++ "Connection string not configured")], []).
Proof.
  intros c d name arguments Hc Hn. rewrite handle_call_tool_run.
  destruct (pipeline c name (or_empty arguments)) as [body|] eqn:Hp;
    [|now apply pipeline_known in Hp].
  assert (Hb : run d body =
               (Exc (ValueError "Connection string not configured"), [])).
  { revert Hp. unfold pipeline.
    repeat match goal with
           | |- context [String.eqb name ?k] => destruct (String.eqb name k)
           end; intros Hp; try discriminate; injection Hp as <-;
      unfold run, execute_query_body, get_tables_body, get_table_schema_body,
        create_table_body, insert_data_body;
      rewrite with_connection_run; unfold unconfigured in Hc;
      destruct (connection_string c) as [cs|]; try reflexivity;
      cbn [truthy] in Hc; destruct (String.eqb cs ""); try reflexivity;
      discriminate. }
  now rewrite Hb.
Qed.

Lemma unconfigured_connector_never_calls_the_driver_witness :
  run Sample.one_row_db (handle_call_tool (mkConnector (Some "")) "get_tables" None) =
    (Ok [mkTextContent "text" "Failed to get tables: Connection string not configured"],
     []).
Proof.
  apply (unconfigured_connector_never_calls_the_driver
           (mkConnector (Some "")) Sample.one_row_db "get_tables" None).
  - reflexivity.
  - simpl. auto.
Defined.

(** X2. When [pyodbc.connect] raises an exception under [Exception],
    every declared tool answers with its failure prefix followed by the
    driver's message, and the failure is logged once; when it raises an
    exception that is not under [Exception], nothing is logged and that
    exception leaves the call.  In both cases neither a cursor nor a
    statement nor the closing of a [with] block follows. *)
Theorem refused_connection_is_reported :
  forall (c : AzureSQLConnector) (d : Driver) (name : string) (arguments : option dict)
         (cs : string) (e : pyexc),
    connection_string c = Some cs -> cs <> "" ->
    drv_raises d [] (Connect cs) = Some e ->
    In name tool_names ->
    run d (handle_call_tool c name arguments) =
      if under_exception e then
        (Ok [mkTextContent "text" (failure_prefix name ++ exc_str e)],
         [Called (Connect cs) (Some e);
          LogError ("Database connection failed: " ++ exc_str e)])
      else (Exc e, [Called (Connect cs) (Some e)]).
Proof.
  intros c d name arguments cs e Hcs Hne He Hn. rewrite handle_call_tool_run.
  destruct (pipeline c name (or_empty arguments)) as [body|] eqn:Hp;
    [|now apply pipeline_known in Hp].
  assert (Hb : run d body = (Exc e, refused cs e)).
  { revert Hp. unfold pipeline.
    repeat match goal with
           | |- context [String.eqb name ?k] => destruct (String.eqb name k)
           end; intros Hp; try discriminate; injection Hp as <-;
      unfold run, execute_query_body, get_tables_body, get_table_schema_body,
        create_table_body, insert_data_body;
      rewrite with_connection_run, Hcs;
      (destruct (String.eqb_spec cs ""); [contradiction|]);
      now rewrite He. }
  rewrite Hb. cbn [fst snd]. unfold respond, refused.
  now destruct (under_exception e).
Qed.

Lemma refused_connection_is_reported_witness :
  run (mkDriver (fun _ c => match c with
                            | Connect _ => Some (mkExc "OperationalError" "login timeout")
                            | _ => None
                            end)
                (fun _ => []) (fun _ => None))
      (handle_call_tool Sample.sample_connector "insert_data" None) =
    (Ok [mkTextContent "text" "Failed to insert data: login timeout"],
     [Called (Connect Sample.full_connection_string)
             (Some (mkExc "OperationalError" "login timeout"));
      LogError "Database connection failed: login timeout"]).
Proof.
  apply (refused_connection_is_reported Sample.sample_connector _ "insert_data" None
           Sample.full_connection_string (mkExc "OperationalError" "login timeout")).
  - reflexivity.
  - discriminate.
  - reflexivity.
  - simpl. auto 10.
Defined.

(** An interrupt from the keyboard while [pyodbc.connect] runs: nothing
    is logged and the interrupt leaves the call. *)
Example interrupted_connect_leaves_the_call :
  run (mkDriver (fun _ c => match c with
                            | Connect _ => Some (mkExc "KeyboardInterrupt" "")
                            | _ => None
                            end)
                (fun _ => []) (fun _ => None))
      (handle_call_tool Sample.sample_connector "get_tables" None) =
    (Exc (mkExc "KeyboardInterrupt" ""),
     [Called (Connect Sample.full_connection_string)
             (Some (mkExc "KeyboardInterrupt" ""))]).
Proof. vm_compute. reflexivity. Qed.

(* ================================================================= *)
(** ** What a tool hands to the driver *)

Lemma emits_with_connection {A} (Q : event -> Prop) (c : AzureSQLConnector) (body : M A) :
  (forall cs r, Q (Called (Connect cs) r)) ->
  (forall m, Q (LogError ("Database connection failed: " ++ m))) ->
  (forall x r, Q (Called (Exit x) r)) ->
  emits Q body -> emits Q (with_ (get_connection c) body).
Proof.
  intros Hc Hl Hx Hb d tr. unfold with_, get_connection.
  destruct (connection_string c) as [cs|];
    [|exists []; split; [now rewrite app_nil_r | constructor]].
  destruct (negb (truthy (Some cs)));
    [exists []; split; [now rewrite app_nil_r | constructor]|].
  unfold try_except, call at 1, bind, log_error, raise.
  destruct (drv_raises d tr (Connect cs)) as [e|].
  - exists (refused cs e). unfold refused.
    destruct (under_exception e); cbn [snd];
      (split; [now rewrite <- ?app_assoc | repeat constructor; auto]).
  - destruct (Hb d (tr ++ [Called (Connect cs) None])%list) as (mid & E & F).
    destruct (body d _) as [r tr2]. cbn [snd] in E. subst tr2. unfold call.
    exists ([Called (Connect cs) None] ++ mid
              ++ [Called (Exit (exc_of r))
                         (drv_raises d ((tr ++ [Called (Connect cs) None]) ++ mid)
                                     (Exit (exc_of r)))])%list.
    split.
    + destruct (drv_raises d _ (Exit (exc_of r))); cbn [snd];
        now rewrite <- !app_assoc.
    + apply Forall_app. split; [repeat constructor; auto|].
      apply Forall_app. split; [exact F | repeat constructor; auto].
Qed.

Lemma emits_answer {A} (Q : event -> Prop) (body : M A) (h : pyexc -> A) :
  emits Q body -> emits Q (try_except body (fun e => ret (h e))).
Proof. intros H d tr. rewrite try_except_ret. exact (H d tr). Qed.

Lemma emits_run {A} (Q : event -> Prop) (m : M A) (d : Driver) :
  emits Q m -> Forall Q (snd (run d m)).
Proof. intros H. destruct (H d []) as (ev & E & F). unfold run. now rewrite E. Qed.

Ltac emits_auto :=
  repeat first
    [ progress intros
    | apply emits_answer
    | apply emits_with_connection
    | apply emits_bind
    | apply emits_if
    | apply emits_call
    | apply emits_fetchall
    | apply emits_description_names
    | apply emits_lift
    | apply emits_ret
    | exact I
    | solve [eexists; reflexivity]
    | solve [split; reflexivity] ].

(** X3. The two catalog tools only read: no run of [get_tables] or of
    [get_table_schema] calls [commit].  Whatever the table name is, the
    statement [get_table_schema] hands to the driver is its fixed text,
    with the table name as the one bind parameter; [get_tables] hands
    its fixed text without any parameter. *)
Theorem catalog_tools_only_read :
  forall (c : AzureSQLConnector) (d : Driver) (arguments : dict),
    Forall not_commit (snd (run d (get_tables c)))
    /\ Forall not_commit (snd (run d (get_table_schema c arguments)))
    /\ Forall (statement_is (PStr get_tables_sql) []) (snd (run d (get_tables c)))
    /\ Forall (statement_is (PStr get_table_schema_sql)
                            [dict_get arguments "table_name" (PStr "")])
              (snd (run d (get_table_schema c arguments))).
Proof.
  intros c d arguments. repeat split; apply emits_run;
    unfold get_tables, get_tables_body, get_table_schema, get_table_schema_body;
    emits_auto.
Qed.

(** X4. [execute_query] hands the caller's [query] and [parameters] to
    the driver as they are: any statement in its trace is that query,
    with the parameters object as its one argument. *)
Theorem execute_query_passes_the_statement_through :
  forall (c : AzureSQLConnector) (d : Driver) (arguments : dict),
    Forall (statement_is (dict_get arguments "query" (PStr ""))
                         [dict_get arguments "parameters" (PList [])])
           (snd (run d (execute_query c arguments))).
Proof.
  intros c d arguments. apply emits_run.
  unfold execute_query, execute_query_body. emits_auto.
Qed.

Lemma count_none (p : event -> bool) (ev : trace) :
  Forall (fun e => p e = false) ev -> count p ev = 0.
Proof.
  unfold count. induction 1 as [|e ev He _ IH]; [reflexivity|].
  cbn [filter]. now rewrite He.
Qed.

Section Sends.

Context {A B : Type}.

Lemma sends_quiet (m : M A) :
  emits (fun e => is_execute e = false) m -> sends 0 m.
Proof.
  intros H d tr. destruct (H d tr) as (ev & E & F). exists ev. split; [exact E|].
  now rewrite count_none.
Qed.

Lemma sends_bind (a b : nat) (m : M A) (k : A -> M B) :
  sends a m -> (forall x, sends b (k x)) -> sends (a + b) (bind m k).
Proof.
  intros Hm Hk d tr. unfold bind.
  destruct (Hm d tr) as (ev1 & E1 & C1).
  destruct (m d tr) as [[x|e] tr1]; cbn [snd] in E1; subst tr1.
  - destruct (Hk x d (tr ++ ev1)%list) as (ev2 & E2 & C2).
    exists (ev1 ++ ev2)%list. rewrite E2, app_assoc. split; [reflexivity|].
    rewrite count_app. lia.
  - exists ev1. split; [reflexivity | lia].
Qed.

Lemma sends_le (a b : nat) (m : M A) : sends a m -> a <= b -> sends b m.
Proof.
  intros H L d tr. destruct (H d tr) as (ev & E & C). exists ev. split; [exact E | lia].
Qed.

Lemma sends_if (a : nat) (t : bool) (m1 m2 : M A) :
  sends a m1 -> sends a m2 -> sends a (if t then m1 else m2).
Proof. now destruct t. Qed.

End Sends.

Lemma sends_execute (sql : pyval) (params : list pyval) :
  sends 1 (call (Execute sql params)).
Proof.
  intros d tr. eexists. split; [reflexivity|]. cbn. lia.
Qed.

Lemma sends_with_connection {A} (n : nat) (c : AzureSQLConnector) (body : M A) :
  sends n body -> sends n (with_ (get_connection c) body).
Proof.
  intros Hb d tr. unfold with_, get_connection.
  destruct (connection_string c) as [cs|];
    [|exists []; split; [now rewrite app_nil_r | cbn; lia]].
  destruct (negb (truthy (Some cs)));
    [exists []; split; [now rewrite app_nil_r | cbn; lia]|].
  unfold try_except, call at 1, bind, log_error, raise.
  destruct (drv_raises d tr (Connect cs)) as [e|].
  - exists (refused cs e). unfold refused.
    destruct (under_exception e); cbn [snd];
      (split; [now rewrite <- ?app_assoc | cbn; lia]).
  - destruct (Hb d (tr ++ [Called (Connect cs) None])%list) as (mid & E & C).
    destruct (body d _) as [r tr2]. cbn [snd] in E. subst tr2. unfold call.
    exists ([Called (Connect cs) None] ++ mid
              ++ [Called (Exit (exc_of r))
                         (drv_raises d ((tr ++ [Called (Connect cs) None]) ++ mid)
                                     (Exit (exc_of r)))])%list.
    split.
    + destruct (drv_raises d _ (Exit (exc_of r))); cbn [snd];
        now rewrite <- !app_assoc.
    + rewrite !count_app. cbn. lia.
Qed.

(** A step that hands nothing to the driver. *)
Ltac quiet_step :=
  apply sends_quiet;
  first [ apply emits_call; intros; reflexivity
        | apply emits_fetchall; intros; reflexivity
        | apply emits_description_names
        | apply emits_lift
        | apply emits_ret ].

Lemma pipeline_sends_one_statement
      (c : AzureSQLConnector) (name : string) (arguments : dict)
      (body : M (list TextContent)) :
  pipeline c name arguments = Some body -> sends 1 body.
Proof.
  unfold pipeline.
  repeat match goal with
         | |- context [String.eqb name ?k] => destruct (String.eqb name k)
         end; intros H; try discriminate; injection H as <-;
    unfold execute_query_body, get_tables_body, get_table_schema_body,
      create_table_body, insert_data_body;
    apply sends_with_connection.
  - apply (sends_bind 0 1); [quiet_step|]. intros _.
    apply (sends_bind 1 0); [apply sends_execute|]. intros _.
    apply (sends_bind 0 0); [quiet_step|]. intros stripped.
    apply sends_if.
    + apply (sends_bind 0 0); [quiet_step|]. intros results.
      apply (sends_bind 0 0); [quiet_step|]. intros columns.
      apply (sends_bind 0 0); [quiet_step|]. intros dumped. quiet_step.
    + apply (sends_bind 0 0); [quiet_step|]. intros _. quiet_step.
  - apply (sends_bind 0 1); [quiet_step|]. intros _.
    apply (sends_bind 1 0); [apply sends_execute|]. intros _.
    apply (sends_bind 0 0); [quiet_step|]. intros rows.
    apply (sends_bind 0 0); [quiet_step|]. intros tables.
    apply (sends_bind 0 0); [quiet_step|]. intros dumped. quiet_step.
  - apply (sends_bind 0 1); [quiet_step|]. intros _.
    apply (sends_bind 1 0); [apply sends_execute|]. intros _.
    apply (sends_bind 0 0); [quiet_step|]. intros rows.
    apply (sends_bind 0 0); [quiet_step|]. intros columns.
    apply (sends_bind 0 0); [quiet_step|]. intros dumped. quiet_step.
  - apply (sends_bind 0 1); [quiet_step|]. intros _. cbn zeta.
    apply (sends_bind 1 0); [apply sends_execute|]. intros _.
    apply (sends_bind 0 0); [quiet_step|]. intros _. quiet_step.
  - apply (sends_bind 0 1); [quiet_step|]. intros _.
    apply (sends_bind 0 1); [quiet_step|]. intros columns_str.
    apply (sends_bind 0 1); [quiet_step|]. intros items. cbn zeta.
    apply (sends_bind 1 0); [apply sends_execute|]. intros _.
    apply (sends_bind 0 0); [quiet_step|]. intros _. quiet_step.
Qed.

(** X5. No tool call hands more than one statement to the driver,
    whatever the name, the arguments and the answers of the driver. *)
Theorem one_statement_per_call :
  forall (c : AzureSQLConnector) (d : Driver) (name : string) (arguments : option dict),
    count is_execute (snd (run d (handle_call_tool c name arguments))) <= 1.
Proof.
  intros c d name arguments. rewrite handle_call_tool_run.
  destruct (pipeline c name (or_empty arguments)) as [body|] eqn:Hp.
  - cbn [snd]. destruct (pipeline_sends_one_statement c name _ body Hp d [])
      as (ev & E & C).
    unfold run. now rewrite E.
  - cbn. lia.
Qed.

(* ================================================================= *)
(** ** The registry and the dispatcher *)

Lemma returns_block (letters t : string) :
  starts_with_one_of letters t ->
  returns (block_starting letters) (ret [mkTextContent "text" t]).
Proof. intros H. apply returns_ret. now exists t. Qed.

Lemma pipeline_returns_tool_text
      (c : AzureSQLConnector) (name : string) (arguments : dict)
      (body : M (list TextContent)) :
  pipeline c name arguments = Some body -> returns (block_starting "QTSDF") body.
Proof.
  unfold pipeline.
  repeat match goal with
         | |- context [String.eqb name ?k] => destruct (String.eqb name k)
         end; intros H; try discriminate; injection H as <-;
    unfold execute_query_body, get_tables_body, get_table_schema_body,
      create_table_body, insert_data_body;
    repeat first [ progress intros
                 | apply returns_with
                 | apply returns_bind
                 | apply returns_if
                 | apply returns_block; simpl; auto 10 ].
Qed.

Lemma failure_prefix_starts (name msg : string) :
  In name tool_names -> starts_with_one_of "QTSDF" (failure_prefix name ++ msg).
Proof.
  intros H. simpl in H.
  repeat (destruct H as [<-|H]; [simpl; auto 10|]). contradiction.
Qed.

(** The text of every response: the tool's own for a declared name, the
    "Unknown tool" line otherwise. *)
Lemma handle_call_tool_text
      (c : AzureSQLConnector) (d : Driver) (name : string) (arguments : option dict)
      (t : string) :
  fst (run d (handle_call_tool c name arguments)) = Ok [mkTextContent "text" t] ->
  (In name tool_names -> starts_with_one_of "QTSDF" t)
  /\ (~ In name tool_names -> t = "Unknown tool: " ++ name).
Proof.
  rewrite handle_call_tool_run.
  destruct (pipeline c name (or_empty arguments)) as [body|] eqn:Hp.
  - assert (Hn : In name tool_names).
    { destruct (in_dec string_dec name tool_names) as [Hn|Hn]; [exact Hn|].
      apply (pipeline_known c name (or_empty arguments)) in Hn. congruence. }
    cbn [fst]. unfold respond.
    destruct (run d body) as [[content|e] tr] eqn:Hr; cbn [fst].
    + destruct (pipeline_returns_tool_text c name _ body Hp d [] content tr Hr)
        as (t' & -> & Ht).
      intros [= <-]. split; [now intros _ | now intros N].
    + destruct (under_exception e); [|discriminate]. intros [= <-].
      split; [intros _; now apply failure_prefix_starts | now intros N].
  - apply pipeline_known in Hp. cbn [fst]. intros [= <-].
    split; [now intros N | reflexivity].
Qed.

Lemma handle_call_tool_unknown
      (c : AzureSQLConnector) (d : Driver) (name : string) (arguments : option dict) :
  ~ In name tool_names ->
  fst (run d (handle_call_tool c name arguments))
  = Ok [mkTextContent "text" ("Unknown tool: " ++ name)].
Proof.
  intros Hn. rewrite handle_call_tool_run.
  apply (pipeline_known c name (or_empty arguments)) in Hn. now rewrite Hn.
Qed.

(** X6. The names [handle_list_tools] declares are exactly the names
    [handle_call_tool] serves: a call under a declared name is never
    answered "Unknown tool: ...", and a call under any other name
    always is. *)
Theorem declared_tools_are_the_served_ones :
  forall (c : AzureSQLConnector) (d : Driver) (name : string) (arguments : option dict),
    In name (map Server.name handle_list_tools) <->
    fst (run d (handle_call_tool c name arguments))
    <> Ok [mkTextContent "text" ("Unknown tool: " ++ name)].
Proof.
  intros c d name arguments. fold tool_names. split.
  - intros H E. apply handle_call_tool_text in E. destruct E as [Hin _].
    apply Hin in H. simpl in H.
    repeat (destruct H as [H|H]; [discriminate|]). exact H.
  - intros H. destruct (in_dec string_dec name tool_names) as [Hn|Hn]; [exact Hn|].
    elim H. now apply handle_call_tool_unknown.
Qed.

(** X7. The [except] clause of [handle_call_tool] is never entered: no
    response is "Error: ..." and the only error lines in the log are
    those of a refused connection. *)
Theorem dispatcher_handler_is_never_entered :
  forall (c : AzureSQLConnector) (d : Driver) (name : string) (arguments : option dict),
    (forall msg, fst (run d (handle_call_tool c name arguments))
                 <> Ok [mkTextContent "text" ("Error: " ++ msg)])
    /\ Forall not_dispatcher_log (snd (run d (handle_call_tool c name arguments))).
Proof.
  intros c d name arguments. split.
  - intros msg E. apply handle_call_tool_text in E. destruct E as [Hin Hout].
    destruct (in_dec string_dec name tool_names) as [Hn|Hn].
    + apply Hin in Hn. simpl in Hn.
      repeat (destruct Hn as [Hn|Hn]; [discriminate|]). exact Hn.
    + apply Hout in Hn. discriminate.
  - rewrite handle_call_tool_run.
    destruct (pipeline c name (or_empty arguments)) as [body|] eqn:Hp;
      [|constructor].
    cbn [snd]. destruct (pipeline_shape c d name _ body Hp) as [|cs e|cs mid x r F].
    + constructor.
    + unfold refused. destruct (under_exception e); repeat constructor.
      now exists (exc_str e).
    + constructor; [exact I|]. apply Forall_app. split.
      * eapply Forall_impl; [|exact F]. intros [[] ?| |]; simpl; tauto.
      * repeat constructor.
Qed.

(* ================================================================= *)
(** ** The end of the [with] block *)

Lemma with_connection_exit {A} (c : AzureSQLConnector) (inner : M A) (d : Driver)
      (pre : trace) (x re : option pyexc) :
  snd (with_ (get_connection c) inner d []) = (pre ++ [Called (Exit x) re])%list ->
  match re, x with
  | Some e', _ => fst (with_ (get_connection c) inner d []) = Exc e'
  | None, Some e => fst (with_ (get_connection c) inner d []) = Exc e
  | None, None => exists a, fst (with_ (get_connection c) inner d []) = Ok a
  end.
Proof.
  rewrite with_connection_run.
  destruct (connection_string c) as [cs|]; cbn [snd];
    [|intros H; now apply app_cons_not_nil in H].
  destruct (String.eqb cs ""); cbn [snd];
    [intros H; now apply app_cons_not_nil in H|].
  destruct (drv_raises d [] (Connect cs)) as [e|]; cbn [snd].
  - unfold refused. destruct (under_exception e); intros H.
    + change [Called (Connect cs) (Some e);
              LogError ("Database connection failed: " ++ exc_str e)]
        with ([Called (Connect cs) (Some e)]
                ++ [LogError ("Database connection failed: " ++ exc_str e)])%list in H.
      apply app_inj_tail in H. destruct H as [_ H]. discriminate.
    + change [Called (Connect cs) (Some e)]
        with ([] ++ [Called (Connect cs) (Some e)])%list in H.
      apply app_inj_tail in H. destruct H as [_ H]. discriminate.
  - destruct (inner d _) as [r tr2]. unfold close_scope. cbn [fst snd].
    destruct (drv_raises d tr2 (Exit (exc_of r))) as [e'|]; cbn [fst snd];
      intros H; apply app_inj_tail in H; destruct H as [_ H];
      injection H as <- <-; [reflexivity|].
    destruct r as [a|e]; cbn [exc_of]; [now exists a | reflexivity].
Qed.

(** X8. The [__exit__] that ends the [with] block is told how the call
    went.  When it is called without an exception and raises none, the
    tool's guarded region returned and the response is its success
    content; when it is called with an exception and raises none, the
    response is the tool's failure prefix with that exception's text;
    when it raises itself, the response carries its own text.  In the
    last two cases an exception that is not under [Exception] is not
    answered: it leaves the call. *)
Theorem exit_is_told_the_outcome :
  forall (c : AzureSQLConnector) (d : Driver) (name : string) (arguments : option dict)
         (body : M (list TextContent)) (pre : trace) (x re : option pyexc),
    pipeline c name (or_empty arguments) = Some body ->
    snd (run d (handle_call_tool c name arguments)) = (pre ++ [Called (Exit x) re])%list ->
    match re, x with
    | Some e', _ =>
        fst (run d (handle_call_tool c name arguments)) =
          if under_exception e'
          then Ok [mkTextContent "text" (failure_prefix name ++ exc_str e')]
          else Exc e'
    | None, Some e =>
        fst (run d (handle_call_tool c name arguments)) =
          if under_exception e
          then Ok [mkTextContent "text" (failure_prefix name ++ exc_str e)]
          else Exc e
    | None, None =>
        exists content,
          fst (run d body) = Ok content
          /\ fst (run d (handle_call_tool c name arguments)) = Ok content
    end.
Proof.
  intros c d name arguments body pre x re Hp. rewrite handle_call_tool_run, Hp.
  cbn [fst snd]. intros Htr.
  assert (H : match re, x with
              | Some e', _ => fst (run d body) = Exc e'
              | None, Some e => fst (run d body) = Exc e
              | None, None => exists a, fst (run d body) = Ok a
              end).
  { revert Hp Htr. unfold pipeline, run.
    repeat match goal with
           | |- context [String.eqb name ?k] => destruct (String.eqb name k)
           end; intros Hp; try discriminate; injection Hp as <-;
      unfold execute_query_body, get_tables_body, get_table_schema_body,
        create_table_body, insert_data_body;
      apply with_connection_exit. }
  destruct re as [e'|]; [now rewrite H|].
  destruct x as [e|]; [now rewrite H|].
  destruct H as (a & Ha). exists a. now rewrite Ha.
Qed.

Lemma exit_is_told_the_outcome_witness :
  fst (run Sample.rejecting_db
           (handle_call_tool Sample.sample_connector "create_table" None)) =
    Ok [mkTextContent "text" "Failed to create table: ('42000', 'syntax error')"].
Proof.
  apply (exit_is_told_the_outcome
           Sample.sample_connector Sample.rejecting_db "create_table" None
           (create_table_body Sample.sample_connector (PStr "") (PStr ""))
           [Called (Connect Sample.full_connection_string) None;
            Called Cursor None;
            Called (Execute (PStr "CREATE TABLE  ()") [])
                   (Some (mkExc "ProgrammingError" "('42000', 'syntax error')"))]
           (Some (mkExc "ProgrammingError" "('42000', 'syntax error')")) None).
  - reflexivity.
  - vm_compute. reflexivity.
Defined.

(* ================================================================= *)
(** ** The catalog tools *)

Lemma map_result_ok {A B} (f : A -> result B) (xs : list A) (ys : list B) :
  Forall2 (fun x y => f x = Ok y) xs ys -> map_result f xs = Ok ys.
Proof.
  induction 1 as [|x y xs ys Hxy _ IH]; cbn [map_result]; [reflexivity|].
  now rewrite Hxy, IH.
Qed.

Lemma json_dumps_texts (names : list string) :
  json_dumps false (PList (map PStr names))
  = Ok (json_array (map json_string names)).
Proof.
  unfold json_dumps. destruct names as [|n names]; [reflexivity|].
  cbn [map json_encode].
  rewrite (map_result_ok (json_encode false 1) (PStr n :: map PStr names)
                         (map json_string (n :: names))); [reflexivity|].
  cbn [map]. constructor; [reflexivity|].
  induction names as [|m names IH]; cbn [map]; constructor; auto.
Qed.

Lemma get_tables_body_cases (c : AzureSQLConnector) (d : Driver) :
  failed_early (run d (get_tables_body c))
  \/ exists cs,
       run d (get_tables_body c) =
         close_scope d (tables_branch d (executed cs (PStr get_tables_sql) [])).
Proof.
  unfold run, get_tables_body. rewrite with_connection_run.
  repeat split_run; try early_failure.
  run_step. split_run; [early_failure|].
  run_step. split_run; [early_failure|].
  right. exists s. f_equal.
  unfold tables_branch, executed.
  run_step. split_run; [reflexivity|].
  run_step. destruct (map_result _ _); [|reflexivity].
  run_step. now destruct (json_dumps false _).
Qed.

(** X9. When the catalog query of [get_tables] was executed without
    error, no driver call of the run raised, and every row begins with
    a text, the response is "Tables in database:", a line break, and
    the JSON array of those first columns, one per row, in the order of
    the rows. *)
Theorem get_tables_lists_the_first_column :
  forall (c : AzureSQLConnector) (d : Driver) (names : list string),
    let out := run d (get_tables c) in
    (exists sql ps, In (Called (Execute sql ps) None) (snd out)) ->
    (forall c0 e, ~ In (Called c0 (Some e)) (snd out)) ->
    (forall cs,
        Forall2 (fun row n => nth_error row 0 = Some (PStr n))
                (drv_rows d (executed cs (PStr get_tables_sql) [])) names) ->
    fst out =
      Ok [mkTextContent "text"
            ("Tables in database:" ++ newline
               ++ json_array (map json_string names))].
Proof.
  intros c d names out. subst out.
  unfold run, get_tables. rewrite try_except_ret. cbn [fst snd].
  intros (sql & ps & Hex) Hquiet Hrows.
  destruct (get_tables_body_cases c d) as [[N _]|(cs & E)];
    [now elim (N _ _ Hex)|].
  unfold run in E. rewrite E in Hquiet |- *. clear E Hex.
  destruct (close_scope_trace d
              (tables_branch d (executed cs (PStr get_tables_sql) [])))
    as (r & Htr & Hfst).
  rewrite Htr in Hquiet. destruct r as [e|].
  { exfalso. eapply Hquiet. apply in_or_app. right. left. reflexivity. }
  rewrite (Hfst eq_refl). revert Hquiet. unfold tables_branch.
  destruct (drv_raises d _ Fetchall) as [e|]; cbn [fst snd]; intros Hquiet.
  { exfalso. eapply (Hquiet Fetchall e). apply in_or_app. left. apply in_or_app.
    right. left. reflexivity. }
  rewrite (map_result_ok (fun row => row_item row 0) _ (map PStr names)).
  - now rewrite json_dumps_texts.
  - specialize (Hrows cs). clear Hquiet.
    induction Hrows as [|row n rows names' Hrow _ IH]; cbn [map]; constructor; auto.
    unfold row_item. now rewrite Hrow.
Qed.

Lemma get_tables_lists_the_first_column_witness :
  fst (run (mkDriver (fun _ _ => None)
                     (fun _ => [[PStr "orders"; PStr "dbo"]; [PStr "users"]])
                     (fun _ => Some ["TABLE_NAME"]))
           (get_tables Sample.sample_connector))
  = Ok [mkTextContent "text"
          ("Tables in database:" ++ newline
             ++ json_array (map json_string ["orders"; "users"]))].
Proof.
  apply (get_tables_lists_the_first_column Sample.sample_connector _
           ["orders"; "users"]).
  - exists (PStr get_tables_sql), []. vm_compute. right. right. left. reflexivity.
  - intros c0 e H. vm_compute in H.
    repeat (destruct H as [H|H]; [discriminate|]). exact H.
  - intros cs. repeat constructor.
Defined.





(* ================================================================= *)
(** ** Serializing what the driver returns *)

Lemma map_result_ok_iff {A B} (f : A -> result B) (xs : list A) :
  (exists ys, map_result f xs = Ok ys) <-> Forall (fun x => exists y, f x = Ok y) xs.
Proof.
  split; [|apply map_result_total].
  induction xs as [|x xs IH]; intros (ys & H); [constructor|].
  cbn [map_result] in H. destruct (f x) as [y|e] eqn:Hx; [|discriminate].
  destruct (map_result f xs) as [ys'|e] eqn:Hxs; [|discriminate].
  constructor; [now exists y | apply IH; now exists ys'].
Qed.

Lemma forallb_Forall {A} (p : A -> bool) (l : list A) :
  forallb p l = true <-> Forall (fun x => p x = true) l.
Proof. rewrite forallb_forall, Forall_forall. reflexivity. Qed.

Lemma json_encode_plain_iff (v : pyval) :
  forall lvl, (exists s, json_encode false lvl v = Ok s) <-> json_native v = true.
Proof.
  induction v as [|b|z|r|s|l IH|kvs IH|ty s] using pyval_nested_ind;
    intros lvl; cbn [json_native];
    try (split; [reflexivity | intros _; eexists; reflexivity]).
  - destruct l as [|x l];
      [split; [reflexivity | intros _; eexists; reflexivity]|].
    cbn [json_encode]. rewrite forallb_Forall.
    transitivity (exists ts, map_result (json_encode false (S lvl)) (x :: l) = Ok ts).
    + destruct (map_result _ (x :: l)) as [ts|e].
      * split; intros _; eexists; reflexivity.
      * split; intros (t & H); discriminate.
    + rewrite map_result_ok_iff, !Forall_forall. rewrite Forall_forall in IH.
      split; intros H a Ha; apply (IH a Ha (S lvl)); auto.
  - destruct kvs as [|kv kvs];
      [split; [reflexivity | intros _; eexists; reflexivity]|].
    cbn [json_encode]. rewrite forallb_Forall.
    match goal with
    | |- context [map_result ?f (kv :: kvs)] =>
        transitivity (exists ts, map_result f (kv :: kvs) = Ok ts);
        [destruct (map_result f (kv :: kvs)) as [ts|e];
         [split; intros _; eexists; reflexivity
         |split; intros (t & H); discriminate]
        |rewrite map_result_ok_iff]
    end.
    rewrite !Forall_forall. rewrite Forall_forall in IH.
    split; intros H [k a] Ha; specialize (H (k, a) Ha);
      specialize (IH (k, a) Ha (S lvl)); cbn [snd] in *.
    + apply IH. destruct H as (y & Hy).
      destruct (json_encode false (S lvl) a) as [t|e]; [now exists t | discriminate].
    + destruct (proj2 IH H) as (t & ->). eexists; reflexivity.
  - split; [intros (t & H); discriminate | discriminate].
Qed.

(** X11. [json.dumps] as [get_tables] and [get_table_schema] call it
    returns a text exactly for the values that hold no foreign object
    (Decimal, datetime, bytes, ...) at any depth, and raises TypeError
    on the others; as [execute_query] calls it, with [default=str], it
    returns a text for every value. *)
Theorem json_dumps_raises_only_on_foreign_objects :
  forall (v : pyval),
    ((exists s, json_dumps false v = Ok s) <-> json_native v = true)
    /\ (exists s, json_dumps true v = Ok s).
Proof.
  intros v. split.
  - apply json_encode_plain_iff.
  - apply json_encode_default_total.
Qed.

Example decimal_in_the_first_column :
  json_dumps false (PList [PStr "orders"; POther "Decimal" "1.50"])
  = Exc (TypeError "Object of type Decimal is not JSON serializable")
  /\ json_dumps true (PList [PStr "orders"; POther "Decimal" "1.50"])
     = Ok (json_array [json_string "orders"; json_string "1.50"]).
Proof. split; reflexivity. Qed.

(* ================================================================= *)
(** ** The rows of [execute_query] *)

Lemma dict_get_set (d : dict) (k : string) (v : pyval) (k' : string) (dflt : pyval) :
  dict_get (dict_set d k v) k' dflt =
    if String.eqb k k' then v else dict_get d k' dflt.
Proof.
  induction d as [|[k0 w] d IH]; cbn [dict_set dict_get]; [reflexivity|].
  destruct (String.eqb_spec k0 k) as [->|N]; cbn [dict_get].
  - now destruct (String.eqb k k').
  - rewrite IH. destruct (String.eqb_spec k0 k') as [->|N'];
      [|reflexivity].
    destruct (String.eqb_spec k k'); [congruence | reflexivity].
Qed.

Lemma dict_set_keys (d : dict) (k : string) (v : pyval) (k' : string) :
  In k' (map fst (dict_set d k v)) <-> In k' (map fst d) \/ k' = k.
Proof.
  induction d as [|[k0 w] d IH]; cbn [dict_set map fst In].
  - intuition congruence.
  - destruct (String.eqb_spec k0 k) as [->|N]; cbn [map fst In].
    + intuition congruence.
    + rewrite IH. tauto.
Qed.

Lemma dict_set_nodup (d : dict) (k : string) (v : pyval) :
  NoDup (map fst d) -> NoDup (map fst (dict_set d k v)).
Proof.
  induction d as [|[k0 w] d IH]; cbn [dict_set map fst]; intros H.
  - repeat constructor. intros [].
  - inversion H as [|? ? Hnin Hd]; subst.
    destruct (String.eqb_spec k0 k) as [->|N]; cbn [map fst].
    + now constructor.
    + constructor; [|now apply IH].
      rewrite dict_set_keys. intros [I|E]; [contradiction | congruence].
Qed.

Lemma dict_get_app (l1 l2 : dict) (k : string) (dflt : pyval) :
  dict_get (l1 ++ l2)%list k dflt = dict_get l1 k (dict_get l2 k dflt).
Proof.
  induction l1 as [|[k0 w] l1 IH]; cbn [app dict_get]; [reflexivity|].
  now destruct (String.eqb k0 k).
Qed.

Lemma dict_fold (ps : list (string * pyval)) :
  forall acc : dict,
    NoDup (map fst acc) ->
    let d := fold_left (fun d kv => dict_set d (fst kv) (snd kv)) ps acc in
    NoDup (map fst d)
    /\ (forall k, In k (map fst d) <-> In k (map fst ps) \/ In k (map fst acc))
    /\ (forall k dflt, dict_get d k dflt = dict_get (rev ps) k (dict_get acc k dflt)).
Proof.
  induction ps as [|[k0 v0] ps IH]; intros acc Hacc; cbn [fold_left fst snd].
  - cbn. repeat split; auto; tauto.
  - destruct (IH (dict_set acc k0 v0) (dict_set_nodup acc k0 v0 Hacc))
      as (Hn & Hk & Hg).
    split; [exact Hn|]. split.
    + intros k. rewrite Hk, dict_set_keys. cbn [map fst In]. intuition congruence.
    + intros k dflt. rewrite Hg, dict_get_set. cbn [rev].
      rewrite dict_get_app. reflexivity.
Qed.

(** X12. The dict [execute_query] builds for a row, [dict(zip(columns,
    row))], holds every column name that was paired with a value, each
    once; under a name that the description gives several times it
    holds the value of the last such column, and the earlier ones are
    gone. *)
Theorem row_dict_keeps_the_last_of_equal_names :
  forall (columns : list string) (row : list pyval),
    let d := dict_of_pairs (zip columns row) in
    NoDup (map fst d)
    /\ (forall k, In k (map fst d) <-> In k (map fst (zip columns row)))
    /\ (forall k dflt, dict_get d k dflt = dict_get (rev (zip columns row)) k dflt).
Proof.
  intros columns row d. subst d. unfold dict_of_pairs.
  destruct (dict_fold (zip columns row) [] (NoDup_nil _)) as (Hn & Hk & Hg).
  split; [exact Hn|]. split.
  - intros k. rewrite Hk. cbn. tauto.
  - intros k dflt. now rewrite Hg.
Qed.

Example two_columns_named_id :
  dict_of_pairs (zip ["id"; "name"; "id"] [PInt 1; PStr "a"; PInt 2])
  = [("id", PInt 2); ("name", PStr "a")].
Proof. reflexivity. Qed.

(* ================================================================= *)
(** ** The test for SELECT *)

Lemma chars_app (a b : string) : chars (a ++ b) = (chars a ++ chars b)%list.
Proof. unfold chars. induction a as [|c a IH]; cbn; [reflexivity | now rewrite IH]. Qed.

Lemma chars_of_chars (l : list ascii) : chars (of_chars l) = l.
Proof. apply list_ascii_of_string_of_list_ascii. Qed.

Lemma lstrip_app (l m : list ascii) :
  lstrip_chars (l ++ m) =
    match lstrip_chars l with
    | [] => lstrip_chars m
    | x => (x ++ m)%list
    end.
Proof.
  induction l as [|c l IH]; cbn [app lstrip_chars]; [reflexivity|].
  now destruct (isspace c).
Qed.

Lemma lstrip_spaces (l : list ascii) :
  Forall (fun c => isspace c = true) l -> lstrip_chars l = [].
Proof. induction 1 as [|c l Hc _ IH]; cbn [lstrip_chars]; [reflexivity | now rewrite Hc]. Qed.

Lemma strip_surrounded (ws q ws' : string) :
  all_space ws -> all_space ws' -> strip (ws ++ q ++ ws') = strip q.
Proof.
  unfold all_space, strip. intros H H'. f_equal. f_equal.
  rewrite !chars_app, lstrip_app, (lstrip_spaces _ H), lstrip_app.
  destruct (lstrip_chars (chars q)) as [|c l] eqn:E.
  - now rewrite (lstrip_spaces _ H').
  - rewrite rev_app_distr, lstrip_app.
    rewrite (lstrip_spaces (rev (chars ws'))); [reflexivity|].
    now apply Forall_rev.
Qed.

Lemma isspace_upper (c : ascii) : isspace (upper_char c) = isspace c.
Proof. destruct c as [[] [] [] [] [] [] [] []]; reflexivity. Qed.

Lemma upper_char_idempotent (c : ascii) : upper_char (upper_char c) = upper_char c.
Proof. destruct c as [[] [] [] [] [] [] [] []]; reflexivity. Qed.

Lemma lstrip_map_upper (l : list ascii) :
  lstrip_chars (map upper_char l) = map upper_char (lstrip_chars l).
Proof.
  induction l as [|c l IH]; cbn [map lstrip_chars]; [reflexivity|].
  rewrite isspace_upper. now destruct (isspace c).
Qed.

Lemma strip_upper (q : string) : strip (upper q) = upper (strip q).
Proof.
  unfold strip, upper. rewrite !chars_of_chars.
  now rewrite lstrip_map_upper, <- map_rev, lstrip_map_upper, <- map_rev.
Qed.

Lemma upper_idempotent (s : string) : upper (upper s) = upper s.
Proof.
  unfold upper. rewrite chars_of_chars, map_map. f_equal.
  apply map_ext. intros c. apply upper_char_idempotent.
Qed.

(** X13. The test [query.strip().upper().startswith("SELECT")] gives
    the same answer when whitespace is put before or after the
    statement text, and when the text is put in upper case. *)
Theorem select_test_ignores_case_and_surrounding_space :
  forall (ws q ws' : string),
    all_space ws -> all_space ws' ->
    is_select_query (ws ++ q ++ ws') = is_select_query q
    /\ is_select_query (upper q) = is_select_query q.
Proof.
  intros ws q ws' H H'. unfold is_select_query. split.
  - now rewrite strip_surrounded.
  - now rewrite strip_upper, upper_idempotent.
Qed.

Lemma select_test_ignores_case_and_surrounding_space_witness :
  is_select_query (String (ascii_of_nat 9) " " ++ "select 1" ++ newline)
  = is_select_query "select 1"
  /\ is_select_query (upper "select 1") = is_select_query "select 1".
Proof.
  apply (select_test_ignores_case_and_surrounding_space
           (String (ascii_of_nat 9) " ") "select 1" newline);
    repeat constructor.
Defined.

(** When [query] is not a text, the guarded region of [execute_query]
    raises, and it neither fetches nor commits. *)
Lemma execute_query_body_not_text
      (c : AzureSQLConnector) (d : Driver) (query parameters : pyval) :
  (forall q, query <> PStr q) ->
  (exists e, fst (run d (execute_query_body c query parameters)) = Exc e)
  /\ Forall settles_nothing (snd (run d (execute_query_body c query parameters))).
Proof.
  intros Hq. unfold run, execute_query_body. rewrite with_connection_run.
  unfold refused.
  repeat split_run; cbn [fst snd];
    try (split; [eexists; reflexivity | repeat constructor]).
  run_step. split_run.
  { unfold close_scope. cbn [fst snd exc_of app]. split_run; cbn [fst snd];
      (split; [eexists; reflexivity | repeat constructor]). }
  run_step. split_run.
  { unfold close_scope. cbn [fst snd exc_of app]. split_run; cbn [fst snd];
      (split; [eexists; reflexivity | repeat constructor]). }
  run_step.
  destruct query as [|b|z|r|q|l|kvs|ty sf]; try (now elim (Hq q));
    cbn [py_strip]; unfold close_scope; cbn [fst snd exc_of app];
    split_run; cbn [fst snd];
    (split; [eexists; reflexivity | repeat constructor]).
Qed.

(** X14. When [query] is not a text, [execute_query] still hands it to
    the driver, with the parameters, as soon as the driver has given the
    connection and the cursor.  Whatever the driver answers, the run
    neither fetches nor commits and its guarded region raises: on a
    driver that raises only exceptions under [Exception] the call ends
    in the failure payload. *)
Theorem query_that_is_not_text_is_never_settled :
  forall (c : AzureSQLConnector) (d : Driver) (arguments : dict),
    (forall q, dict_get arguments "query" (PStr "") <> PStr q) ->
    let out := run d (execute_query c arguments) in
    Forall settles_nothing (snd out)
    /\ (exists e,
          fst out = if under_exception e
                    then Ok [mkTextContent "text"
                               ("Query execution failed: " ++ exc_str e)]
                    else Exc e)
    /\ (raises_only_exceptions d -> failure_payload "execute_query" (fst out))
    /\ (forall cs,
          connection_string c = Some cs -> cs <> "" -> gives_cursor d cs ->
          opens_with (handed d cs (dict_get arguments "query" (PStr ""))
                             [dict_get arguments "parameters" (PList [])])
                     (snd out)).
Proof.
  intros c d arguments Hq out. subst out. unfold run, execute_query.
  rewrite try_except_ret. cbn [fst snd].
  destruct (execute_query_body_not_text
              c d _ (dict_get arguments "parameters" (PList [])) Hq)
    as ((e & He) & F).
  unfold run in He, F. split; [exact F|].
  destruct (execute_query_body c _ _ d []) as [r tr] eqn:Hr.
  cbn [fst snd] in *. subst r. split; [now exists e|]. split.
  - intros Hd.
    rewrite (pipeline_tame c "execute_query" arguments _ eq_refl d [] e tr Hd Hr).
    now exists (exc_str e).
  - intros cs Hcs Hne Hg.
    pose proof (pipeline_hands_its_statement
                  c d "execute_query" arguments cs _ _ _ Hcs Hne Hg
                  eq_refl eq_refl) as H.
    unfold run in H. now rewrite Hr in H.
Qed.

Lemma query_that_is_not_text_is_never_settled_witness :
  let out := run Sample.empty_db
                 (execute_query Sample.sample_connector [("query", PNone)]) in
  Forall settles_nothing (snd out)
  /\ failure_payload "execute_query" (fst out)
  /\ opens_with (handed Sample.empty_db Sample.full_connection_string
                        PNone [PList []])
                (snd out).
Proof.
  destruct (query_that_is_not_text_is_never_settled
              Sample.sample_connector Sample.empty_db [("query", PNone)])
    as (F & _ & P & H).
  { intros q. discriminate. }
  split; [exact F|]. split.
  - apply P. intros tr c0 e E. discriminate E.
  - apply (H Sample.full_connection_string);
      [reflexivity | discriminate | split; reflexivity].
Defined.

Example query_null :
  run Sample.empty_db (execute_query Sample.sample_connector [("query", PNone)])
  = (Ok [mkTextContent "text"
           "Query execution failed: 'NoneType' object has no attribute 'strip'"],
     [Called (Connect Sample.full_connection_string) None;
      Called Cursor None;
      Called (Execute PNone [PList []]) None;
      Called (Exit (Some (AttributeError
                            "'NoneType' object has no attribute 'strip'"))) None]).
Proof. vm_compute. reflexivity. Qed.

(* ================================================================= *)
(** ** The packaged copy of the connector *)

Lemma append_assoc (a b c : string) : (a ++ b) ++ c = a ++ b ++ c.
Proof. induction a as [|x a IH]; cbn; [reflexivity | now rewrite IH]. Qed.

(** X15. The constructor of the packaged copy never refuses a
    configuration: it prints the four values it read, the password
    among them, and always leaves a non-empty connection string.
    Whenever the constructor of the source tree accepts the same
    configuration, the two connection strings are equal. *)
Theorem packaged_connector_skips_the_check :
  forall (env : environ),
    fst (BuildLib.init env)
    = env_str (env "AZURE_SQL_SERVER") ++ " " ++ env_str (env "AZURE_SQL_DATABASE")
        ++ " " ++ env_str (env "AZURE_SQL_USERNAME")
        ++ " " ++ env_str (env "AZURE_SQL_PASSWORD") ++ newline
    /\ exists cs,
         BuildLib.connection_string (snd (BuildLib.init env)) = Some cs
         /\ cs <> ""
         /\ forall d tr self tr',
              init env d tr = (Ok self, tr') -> connection_string self = Some cs.
Proof.
  intros env. split.
  { unfold BuildLib.init, BuildLib.setup_connection, BuildLib.print.
    cbn [fst map join]. now rewrite !append_assoc. }
  eexists. split; [reflexivity|]. split; [discriminate|].
  intros d tr self tr'. unfold init, setup_connection.
  destruct (negb _); [discriminate|].
  unfold bind, log_info, ret. intros H. injection H as <- _. reflexivity.
Qed.

Lemma packaged_connector_skips_the_check_witness :
  exists cs,
    BuildLib.connection_string (snd (BuildLib.init Sample.full_env)) = Some cs
    /\ connection_string Sample.sample_connector = Some cs.
Proof.
  destruct (packaged_connector_skips_the_check Sample.full_env)
    as (_ & cs & Hcs & _ & Hsame).
  exists cs. split; [exact Hcs|].
  apply (Hsame Sample.empty_db []
               Sample.sample_connector
               [LogInfo "Connecting to server: srv.example.net, database: shop"]).
  reflexivity.
Defined.

Example packaged_connector_without_password :
  BuildLib.init (fun k => if String.eqb k "AZURE_SQL_PASSWORD" then None
                          else Sample.full_env k)
  = ("srv.example.net shop app None" ++ newline,
     BuildLib.mkConnector
       (Some "DRIVER={ODBC Driver 17 for SQL Server};SERVER=srv.example.net;DATABASE=shop;UID=app;PWD=None;Encrypt=yes;TrustServerCertificate=no;Connection Timeout=30;")).
Proof. reflexivity. Qed.

(* ================================================================= *)
(** ** Interpolated text and bind parameters *)

Lemma emits_bind_lift {A B} (Q : event -> Prop) (r : result A) (k : A -> M B) :
  (forall a, r = Ok a -> emits Q (k a)) -> emits Q (bind (lift r) k).
Proof.
  intros H d tr. rewrite bind_lift. destruct r as [a|e].
  - exact (H a eq_refl d tr).
  - exists []. split; [now rewrite app_nil_r | constructor].
Qed.

(** X16. [create_table] hands the driver the text "CREATE TABLE <name>
    (<columns>)" with no bind parameter.  In [insert_data] the values
    reach the driver only as the bind argument: the text is made of the
    table name, the joined columns and as many placeholders as [values]
    has items, and it is sent only when the columns could be joined and
    [values] could be iterated.  Both statements are handed to the
    driver as soon as it has given the connection and the cursor. *)
Theorem statements_are_built_from_the_arguments :
  forall (c : AzureSQLConnector) (d : Driver) (arguments : dict),
    let table_name := dict_get arguments "table_name" (PStr "") in
    Forall (statement_is
              (PStr (create_table_sql table_name
                                      (dict_get arguments "columns" (PStr ""))))
              [])
           (snd (run d (create_table c arguments)))
    /\ Forall (insert_statement table_name
                                (dict_get arguments "columns" (PList []))
                                (dict_get arguments "values" (PList [])))
              (snd (run d (insert_data c arguments)))
    /\ (forall cs,
          connection_string c = Some cs -> cs <> "" -> gives_cursor d cs ->
          opens_with
            (handed d cs
               (PStr (create_table_sql table_name
                                       (dict_get arguments "columns" (PStr ""))))
               [])
            (snd (run d (create_table c arguments)))
          /\ (forall columns_str items,
                py_join ", " (dict_get arguments "columns" (PList [])) = Ok columns_str ->
                py_iter (dict_get arguments "values" (PList [])) = Ok items ->
                opens_with
                  (handed d cs
                     (PStr (insert_sql table_name columns_str
                              (join ", " (repeat "?" (List.length items)))))
                     [dict_get arguments "values" (PList [])])
                  (snd (run d (insert_data c arguments))))).
Proof.
  intros c d arguments table_name. split; [|split]; [apply emits_run ..|].
  3: { intros cs Hcs Hne Hg. split.
       - unfold run, create_table. rewrite try_except_ret. cbn [snd].
         exact (pipeline_hands_its_statement
                  c d "create_table" arguments cs _ _
                  (create_table_body c (dict_get arguments "table_name" (PStr ""))
                                     (dict_get arguments "columns" (PStr "")))
                  Hcs Hne Hg eq_refl eq_refl).
       - intros columns_str items Hj Hi.
         unfold run, insert_data. rewrite try_except_ret. cbn [snd].
         rewrite <- map_const.
         now apply (insert_data_is_handed
                      c d cs (dict_get arguments "table_name" (PStr ""))
                      (dict_get arguments "columns" (PList []))
                      (dict_get arguments "values" (PList [])) columns_str items). }
  - unfold create_table, create_table_body. fold table_name. emits_auto.
  - unfold insert_data, insert_data_body. fold table_name.
    apply emits_answer. apply emits_with_connection; try (intros; exact I).
    apply emits_bind; [apply emits_call; intros; exact I|]. intros _.
    apply emits_bind_lift. intros columns_str Hc.
    apply emits_bind_lift. intros items Hi. cbn zeta.
    apply emits_bind.
    + apply emits_call. intros r. cbn [insert_statement]. split; [reflexivity|].
      exists columns_str, items. rewrite map_const. auto.
    + intros _. apply emits_bind; [apply emits_call; intros; exact I|].
      intros _. apply emits_ret.
Qed.

Lemma statements_are_built_from_the_arguments_witness :
  opens_with
    (handed Sample.rejecting_db Sample.full_connection_string
            (PStr "CREATE TABLE t (id INT)") [])
    (snd (run Sample.rejecting_db
              (create_table Sample.sample_connector
                            [("table_name", PStr "t"); ("columns", PStr "id INT")])))
  /\ opens_with
       (handed Sample.empty_db Sample.full_connection_string
               (PStr "INSERT INTO t (a) VALUES (?, ?)") [PStr "xy"])
       (snd (run Sample.empty_db
                 (insert_data Sample.sample_connector
                    [("table_name", PStr "t"); ("columns", PList [PStr "a"]);
                     ("values", PStr "xy")]))).
Proof.
  split.
  - destruct (statements_are_built_from_the_arguments
                Sample.sample_connector Sample.rejecting_db
                [("table_name", PStr "t"); ("columns", PStr "id INT")])
      as (_ & _ & H).
    apply (H Sample.full_connection_string);
      [reflexivity | discriminate | split; reflexivity].
  - destruct (statements_are_built_from_the_arguments
                Sample.sample_connector Sample.empty_db
                [("table_name", PStr "t"); ("columns", PList [PStr "a"]);
                 ("values", PStr "xy")])
      as (_ & _ & H).
    destruct (H Sample.full_connection_string) as [_ Hi];
      [reflexivity | discriminate | split; reflexivity |].
    apply (Hi "a" [PStr "x"; PStr "y"]); reflexivity.
Defined.

Example values_given_as_text :
  snd (run Sample.empty_db
           (insert_data Sample.sample_connector
              [("table_name", PStr "t"); ("columns", PList [PStr "a"]);
               ("values", PStr "xy")]))
  = (executed Sample.full_connection_string
              (PStr "INSERT INTO t (a) VALUES (?, ?)") [PStr "xy"]
       ++ [Called Commit None; Called (Exit None) None])%list.
Proof. vm_compute. reflexivity. Qed.

Lemma dict_get_other (arguments : dict) (key k : string) (v dflt : pyval) :
  key <> k -> dict_get ((key, v) :: arguments) k dflt = dict_get arguments k dflt.
Proof.
  intros N. cbn [dict_get]. destruct (String.eqb_spec key k); [contradiction|].
  reflexivity.
Qed.

(** X17. A tool reads only its own arguments: an entry of the arguments
    object under any other key changes neither the response nor what
    is done on the driver. *)
Theorem other_arguments_are_ignored :
  forall (c : AzureSQLConnector) (d : Driver) (name key : string) (v : pyval)
         (arguments : dict),
    (forall default, ~ In (name, key, default) argument_defaults) ->
    run d (handle_call_tool c name (Some ((key, v) :: arguments))) =
    run d (handle_call_tool c name (Some arguments)).
Proof.
  intros c d name key v arguments H.
  assert (Hk : forall k dflt,
             In (name, k, dflt) argument_defaults ->
             dict_get ((key, v) :: arguments) k dflt = dict_get arguments k dflt).
  { intros k dflt Hin. apply dict_get_other. intros ->. exact (H dflt Hin). }
  rewrite !handle_call_tool_run. cbn [or_empty]. unfold pipeline.
  repeat match goal with
         | |- context [String.eqb name ?k] =>
             destruct (String.eqb_spec name k) as [->|?]
         end; try reflexivity;
    rewrite !Hk by (simpl; auto 10); reflexivity.
Qed.

Lemma other_arguments_are_ignored_witness :
  run Sample.one_row_db
      (handle_call_tool Sample.sample_connector "get_table_schema"
         (Some [("schema", PStr "dbo"); ("table_name", PStr "orders")]))
  = run Sample.one_row_db
        (handle_call_tool Sample.sample_connector "get_table_schema"
           (Some [("table_name", PStr "orders")])).
Proof.
  apply (other_arguments_are_ignored Sample.sample_connector Sample.one_row_db
           "get_table_schema" "schema" (PStr "dbo") [("table_name", PStr "orders")]).
  intros default H. simpl in H.
  repeat (destruct H as [H|H]; [discriminate|]). exact H.
Defined.
